(** * webdriver_kaifuku: browser lifecycle, retries and container leases

    A shallow embedding of [src/webdriver_kaifuku/__init__.py]: the two
    session factories ([BrowserFactory], [WharfFactory]) and the lifecycle
    manager ([BrowserManager]).

    Python code is embedded as state-passing functions that either return a
    value or raise an exception.  Everything outside the module (the selenium
    driver class, the session object, the wharf client, the cleanup
    callbacks) is an environment [Env] that decides, from the calls made so
    far, whether the next call returns or raises; each such call is appended
    to the [trace] of the world.

    Scope of the exception model: [exn] holds instances of classes deriving
    from [Exception], which is what [except Exception] catches.  Signals that
    derive from [BaseException] only (KeyboardInterrupt, SystemExit) are not
    modelled. *)

From Stdlib Require Import ZArith Ascii.
From stdpp Require Import base gmap list strings.

Open Scope string_scope.
Open Scope list_scope.

(** ** Exceptions *)

(** The classes named by the [except] clauses of the module, and the classes
    of the errors the interpreter itself raises in it. *)
Inductive exn_class :=
  | CException
  | COSError
  | CURLError
  | CWebDriverException
  | CUnexpectedAlertPresentException
  | CRuntimeError
  | CAttributeError
  | CAssertionError
  | CTypeError
  | CKeyError
  | COther (name : string).

#[global] Instance exn_class_eq_dec : EqDecision exn_class.
Proof. solve_decision. Defined.

(** [URLError.reason] is either another exception instance or a message
    string.  An [OSError] instance always has an [errno] attribute (possibly
    [None]); a string, or an exception of another class, has none. *)
Inductive url_reason :=
  | ReasonOSError (errno : option Z)
  | ReasonNoErrno (description : string).

Inductive exn :=
  | URLError (reason : url_reason)
  | WebDriverException (msg : string)
  | UnexpectedAlertPresentException (msg : string)
  | RuntimeError (msg : string)
  | AttributeError (msg : string)
  | AssertionError
  | TypeError (msg : string)
  | KeyError (key : string)
  | OtherError (name : string) (msg : string).

#[global] Instance url_reason_eq_dec : EqDecision url_reason.
Proof. solve_decision. Defined.

#[global] Instance exn_eq_dec : EqDecision exn.
Proof. solve_decision. Defined.

Definition class_of (e : exn) : exn_class :=
  match e with
  | URLError _ => CURLError
  | WebDriverException _ => CWebDriverException
  | UnexpectedAlertPresentException _ => CUnexpectedAlertPresentException
  | RuntimeError _ => CRuntimeError
  | AttributeError _ => CAttributeError
  | AssertionError => CAssertionError
  | TypeError _ => CTypeError
  | KeyError _ => CKeyError
  | OtherError name _ => COther name
  end.

(** The class itself followed by its bases, up to [Exception]:
    [URLError] derives from [OSError], [UnexpectedAlertPresentException] from
    [WebDriverException]. *)
Definition mro (c : exn_class) : list exn_class :=
  match c with
  | CException => [CException]
  | CURLError => [CURLError; COSError; CException]
  | CUnexpectedAlertPresentException =>
      [CUnexpectedAlertPresentException; CWebDriverException; CException]
  | c => [c; CException]
  end.

(** [isinstance(e, classes)] for a class or a tuple of classes, as an
    [except] clause decides it. *)
Definition isinstance (e : exn) (classes : list exn_class) : bool :=
  existsb (fun c => bool_decide (c ∈ mro (class_of e))) classes.

(** ** Computations that return or raise *)

Inductive outcome (A : Type) :=
  | Ret (v : A)
  | Exc (e : exn).
Arguments Ret {A} v.
Arguments Exc {A} e.

Definition M (S A : Type) : Type := S -> outcome A * S.

Definition ret {S A} (v : A) : M S A := fun s => (Ret v, s).

Definition raise {S A} (e : exn) : M S A := fun s => (Exc e, s).

Definition bind {S A B} (c : M S A) (k : A -> M S B) : M S B :=
  fun s =>
    match c s with
    | (Ret v, s') => k v s'
    | (Exc e, s') => (Exc e, s')
    end.

Notation "'let!' x ':=' c 'in' k" := (bind c (fun x => k))
  (at level 10, x name, c at level 100, k at level 200, only parsing).
Notation "'do!' c 'in' k" := (bind c (fun _ => k))
  (at level 10, c at level 100, k at level 200, only parsing).

Definition get {S} : M S S := fun s => (Ret s, s).

Definition modify {S} (f : S -> S) : M S unit := fun s => (Ret tt, f s).

(** [try: body  except classes_1 as e: h_1 e  except classes_2 as e: ...]:
    the first clause whose classes match handles the exception; an
    exception raised by the handler replaces the one caught. *)
Fixpoint handle {S A} (handlers : list (list exn_class * (exn -> M S A)))
    (e : exn) : M S A :=
  match handlers with
  | [] => raise e
  | (classes, h) :: rest =>
      if isinstance e classes then h e else handle rest e
  end.

Definition try_except {S A} (body : M S A)
    (handlers : list (list exn_class * (exn -> M S A))) : M S A :=
  fun s =>
    match body s with
    | (Ret v, s') => (Ret v, s')
    | (Exc e, s') => handle handlers e s'
    end.

(** [try: body  finally: final]: [final] runs on both exits; when it raises,
    its exception is the one that propagates. *)
Definition try_finally {S A} (body : M S A) (final : M S unit) : M S A :=
  fun s =>
    match body s with
    | (r, s') =>
        match final s' with
        | (Ret _, s'') => (r, s'')
        | (Exc e, s'') => (Exc e, s'')
        end
    end.

(** ** The retry helper *)

(** The error of a call that is given no attempt at all. *)
Definition no_attempt_error : exn :=
  OtherError "tries" "no attempt was made".

(** One invocation, and [retries_left] more while the error is retryable. *)
Fixpoint tries_from {S A} (retries_left : nat)
    (retryable_errors : list exn_class) (operation : M S A) : M S A :=
  fun s =>
    match operation s with
    | (Ret v, s') => (Ret v, s')
    | (Exc e, s') =>
        match retries_left with
        | 0 => (Exc e, s')
        | S k =>
            if isinstance e retryable_errors
            then tries_from k retryable_errors operation s'
            else (Exc e, s')
        end
    end.

(** Modelled from the spec: [tries], of [tries.py], which is imported by the
    module and absent from the sources.  Section 4.1: invokes the operation;
    if it raises an error matching [retryable_errors], retries, one attempt
    per try, up to [max_attempts] invocations; on the final failing attempt
    the error propagates unchanged; an error that does not match propagates
    at once; no delay.  The operation is taken with its arguments already
    applied.  The spec does not say what [max_attempts = 0] gives: no
    invocation can be made, and [no_attempt_error] stands for the result;
    both callers pass 2. *)
Definition tries {S A} (max_attempts : nat)
    (retryable_errors : list exn_class) (operation : M S A) : M S A :=
  match max_attempts with
  | 0 => raise no_attempt_error
  | S k => tries_from k retryable_errors operation
  end.

(** ** The environment *)

(** A session object of the automation client, a cleanup callback and a
    wharf client, each known by its identity. *)
Definition Handle := nat.
Definition Callback := nat.
Definition Wharf := nat.

(** The driver classes of the [selenium.webdriver] module. *)
Inductive driver_class :=
  | Remote
  | Firefox
  | Chrome
  | Driver (name : string).

#[global] Instance driver_class_eq_dec : EqDecision driver_class.
Proof. solve_decision. Defined.

(** Values of the option bag; a value of another type (a nested dict, a
    list) is known by its [repr]. *)
Inductive pyval :=
  | PNone
  | PBool (b : bool)
  | PStr (s : string)
  | PObject (repr : string).

(** The calls that leave the module. *)
Inductive event :=
  | EConstruct (cls : driver_class) (kwargs : gmap string pyval)
  | ESetFileDetector (h : Handle)
  | EMaximizeWindow (h : Handle)
  | EQuit (h : Handle)
  | ECurrentUrl (h : Handle)
  | ECheckout (wh : Wharf)
  | ECheckin (wh : Wharf)
  | ECallback (cb : Callback).

(** What the outside does on each call, given the calls made before it. *)
Record Env := {
  new_session :
    list event -> driver_class -> gmap string pyval -> outcome Handle;
  wharf_config : list event -> Wharf -> string -> outcome pyval;
  responds : list event -> event -> outcome unit
}.

Inductive log_level := Debug | Info | Warning | Error | Exception.

(** The calls made so far, the records logged, and the cleanup list attached
    to each session object (the attribute [__cleanup] that the manager sets
    on the session: no entry when the attribute is not set). *)
Record World := {
  trace : list event;
  log : list (log_level * string);
  cleanup : gmap Handle (list Callback)
}.

Definition record_event (ev : event) (w : World) : World :=
  {| trace := trace w ++ [ev]; log := log w; cleanup := cleanup w |}.

Definition record_log (lvl : log_level) (msg : string) (w : World) : World :=
  {| trace := trace w; log := log w ++ [(lvl, msg)]; cleanup := cleanup w |}.

Definition set_cleanup (h : Handle) (cl : list Callback) (w : World) : World :=
  {| trace := trace w; log := log w; cleanup := <[h := cl]> (cleanup w) |}.

Section Code.

Variable env : Env.

(** A call whose result is not used. *)
Definition call (ev : event) : M World unit :=
  fun w => (responds env (trace w) ev, record_event ev w).

(** The constructor call of the driver class with the keyword arguments. *)
Definition construct (cls : driver_class) (kwargs : gmap string pyval)
    : M World Handle :=
  fun w =>
    (new_session env (trace w) cls kwargs,
     record_event (EConstruct cls kwargs) w).

(** [wharf.config[key]] *)
Definition config (wh : Wharf) (key : string) : M World pyval :=
  fun w => (wharf_config env (trace w) wh key, w).

Definition log_msg (lvl : log_level) (msg : string) : M World unit :=
  modify (record_log lvl msg).

(** ** BrowserFactory *)

Record BrowserFactory := {
  webdriver_class : driver_class;
  browser_kwargs : gmap string pyval
}.

Record WharfFactory := {
  wharf_base : BrowserFactory;
  wharf : Wharf
}.

(** An instance of one of the two classes. *)
Inductive Factory :=
  | Direct (f : BrowserFactory)
  | Container (f : WharfFactory).

Definition base_of (self : Factory) : BrowserFactory :=
  match self with
  | Direct f => f
  | Container f => wharf_base f
  end.

Definition THIRTY_SECONDS : Z := 30.
Definition BROWSER_ERRORS : list exn_class := [CURLError; CWebDriverException].
Definition WHARF_OUTER_RETRIES : nat := 2.

Definition _add_missing_options (self : BrowserFactory) : BrowserFactory :=
  if decide (webdriver_class self = Remote) then self
  else {| webdriver_class := webdriver_class self;
          browser_kwargs := delete "desired_capabilities" (browser_kwargs self) |}.

Definition BrowserFactory_processed_browser_args (self : BrowserFactory)
    : M World (gmap string pyval) :=
  let self := _add_missing_options self in
  match browser_kwargs self !! "keep_alive" with
  | Some _ =>
      do! log_msg Warning "forcing browser keep_alive to False due to selenium bugs" in
      ret (<["keep_alive" := PBool false]> (browser_kwargs self))
  | None => ret (browser_kwargs self)
  end.

Definition WharfFactory_processed_browser_args (self : WharfFactory)
    : M World (gmap string pyval) :=
  let! command_executor := config (wharf self) "webdriver_url" in
  let! _ := config (wharf self) "vnc_display" in
  do! log_msg Info "webdriver command executor set to %s" in
  do! log_msg Info "tests can be viewed via vnc on display {}" in
  let! args := BrowserFactory_processed_browser_args (wharf_base self) in
  ret (<["command_executor" := command_executor]> args).

(** [self.processed_browser_args()]: the method of the class of [self]. *)
Definition processed_browser_args (self : Factory)
    : M World (gmap string pyval) :=
  match self with
  | Direct f => BrowserFactory_processed_browser_args f
  | Container f => WharfFactory_processed_browser_args f
  end.

Definition backend_unreachable : exn :=
  RuntimeError "Could not connect to Selenium server. Is it up and running?".

(** [e.reason.errno], for the [URLError] bound by the handler. *)
Definition reason_errno (e : exn) : M World (option Z) :=
  match e with
  | URLError (ReasonOSError errno) => ret errno
  | URLError (ReasonNoErrno _) =>
      raise (AttributeError "object has no attribute 'errno'")
  | _ => raise (AttributeError "object has no attribute 'reason'")
  end.

(** [BrowserFactory.create(self)]; [self] may be an instance of the
    subclass.  The keyword arguments are evaluated once, before [tries] is
    entered. *)
Definition BrowserFactory_create (self : Factory) : M World Handle :=
  let! browser :=
    try_except
      (let! kwargs := processed_browser_args self in
       tries 2 [CWebDriverException]
         (construct (webdriver_class (base_of self)) kwargs))
      [([CURLError], fun e =>
          let! errno := reason_errno e in
          if decide (errno = Some 111%Z)
          then raise backend_unreachable
          else raise e)] in
  do! modify (record_event (ESetFileDetector browser)) in
  do! call (EMaximizeWindow browser) in
  ret browser.

(** A session object is true in a condition; [None] is false. *)
Definition BrowserFactory_close (browser : option Handle) : M World unit :=
  match browser with
  | Some h => call (EQuit h)
  | None => ret tt
  end.

(** A call of [BrowserFactory.create] on [self] with positional arguments
    [args]: the method takes none besides [self]. *)
Definition call_BrowserFactory_create (self : Factory) (args : list pyval)
    : M World Handle :=
  match args with
  | [] => BrowserFactory_create self
  | _ :: _ =>
      raise (TypeError "create() takes 1 positional argument but more were given")
  end.

(** ** WharfFactory *)

(** [inner] of [WharfFactory.create].  [args] are the positional arguments
    handed to the method of the base class: [url_key] alone in the source. *)
Definition WharfFactory_inner (self : WharfFactory) (args : list pyval)
    : M World Handle :=
  try_except
    (do! call (ECheckout (wharf self)) in
     call_BrowserFactory_create (Container self) args)
    [([CURLError], fun ex =>
        do! log_msg Error "URLError connecting to selenium; recycling container. URLError:" in
        do! log_msg Exception "URLError" in
        do! call (ECheckin (wharf self)) in
        raise ex);
     ([CException], fun ex =>
        do! log_msg Exception "failure on webdriver usage, returning container" in
        do! call (ECheckin (wharf self)) in
        raise ex)].

Definition WharfFactory_attempts (self : WharfFactory) (args : list pyval)
    : M World Handle :=
  tries WHARF_OUTER_RETRIES BROWSER_ERRORS (WharfFactory_inner self args).

(** [WharfFactory.create(self, url_key)], as written: [url_key] is passed on
    to the method of the base class. *)
Definition WharfFactory_create (self : WharfFactory) (url_key : pyval)
    : M World Handle :=
  WharfFactory_attempts self [url_key].

Definition WharfFactory_close (self : WharfFactory) (browser : option Handle)
    : M World unit :=
  try_finally (BrowserFactory_close browser) (call (ECheckin (wharf self))).

(** [factory.create] called with positional arguments [args], and
    [factory.close(browser)], by the class of [factory]. *)
Definition Factory_create (self : Factory) (args : list pyval)
    : M World Handle :=
  match self with
  | Direct _ => call_BrowserFactory_create self args
  | Container f =>
      match args with
      | [url_key] => WharfFactory_create f url_key
      | [] => raise (TypeError "create() missing 1 required positional argument: 'url_key'")
      | _ => raise (TypeError "create() takes 2 positional arguments but more were given")
      end
  end.

Definition Factory_close (self : Factory) (browser : option Handle)
    : M World unit :=
  match self with
  | Direct _ => BrowserFactory_close browser
  | Container f => WharfFactory_close f browser
  end.

(** ** BrowserManager *)

(** The attributes of an instance.  The class declares [browser_factory] and
    [browser]; [factory] is the entry of that name in the instance
    dictionary, which the methods read as [self.factory] and which the
    generated [__init__] does not bind. *)
Record BrowserManager := {
  browser_factory : Factory;
  browser : option Handle;
  factory : option Factory
}.

(** The [__init__] that [attr.s] generates: [browser] is not an argument and
    starts as [None]. *)
Definition BrowserManager_init (browser_factory : Factory) : BrowserManager :=
  {| browser_factory := browser_factory; browser := None; factory := None |}.

(** A method runs on the instance and the world. *)
Definition MS : Type := BrowserManager * World.

Definition liftW {A} (c : M World A) : M MS A :=
  fun s =>
    match c (snd s) with
    | (r, w') => (r, (fst s, w'))
    end.

Definition get_self : M MS BrowserManager := fun s => (Ret (fst s), s).

(** [self.browser = b] *)
Definition set_browser (b : option Handle) : M MS unit :=
  modify (fun s : MS =>
    ({| browser_factory := browser_factory (fst s);
        browser := b;
        factory := factory (fst s) |}, snd s)).

(** [self.factory] *)
Definition getattr_factory : M MS Factory :=
  let! self := get_self in
  match factory self with
  | Some f => ret f
  | None =>
      raise (AttributeError "'BrowserManager' object has no attribute 'factory'")
  end.

(** [self.browser.__cleanup]: the session and the list attached to it. *)
Definition getattr_cleanup : M MS (Handle * list Callback) :=
  let! self := get_self in
  match browser self with
  | None =>
      raise (AttributeError "'NoneType' object has no attribute '__cleanup'")
  | Some h =>
      let! w := liftW get in
      match cleanup w !! h with
      | Some cl => ret (h, cl)
      | None => raise (AttributeError "object has no attribute '__cleanup'")
      end
  end.

(** The statement after the [try] is [return True]; it is the end of the
    body here, and cannot raise. *)
Definition _is_alive : M MS bool :=
  do! liftW (log_msg Debug "alive check") in
  try_except
    (let! self := get_self in
     do! match browser self with
         | Some h => liftW (call (ECurrentUrl h))
         | None =>
             raise (AttributeError "'NoneType' object has no attribute 'current_url'")
         end in
     ret true)
    [([CUnexpectedAlertPresentException], fun _ => ret true);
     ([CException], fun _ =>
        do! liftW (log_msg Exception "browser in unknown state, considering dead") in
        ret false)].

Definition add_cleanup (callback : Callback) : M MS unit :=
  let! self := get_self in
  match browser self with
  | None => raise AssertionError
  | Some h =>
      let! cl :=
        try_except
          (let! hc := getattr_cleanup in ret (snd hc))
          [([CAttributeError], fun _ =>
             do! liftW (modify (set_cleanup h [])) in ret [])] in
      liftW (modify (set_cleanup h (cl ++ [callback])))
  end.

(** [while cl: cl.pop()()] on the list of session [h], given as a stack with
    the last element first: the callback is taken off the list, then called. *)
Fixpoint pop_and_call (h : Handle) (stack : list Callback) : M World unit :=
  match stack with
  | [] => ret tt
  | cb :: below =>
      do! modify (set_cleanup h (rev below)) in
      do! call (ECallback cb) in
      pop_and_call h below
  end.

(** The loop is the [else] branch of the [try]: what a callback raises is
    not caught. *)
Definition _consume_cleanups : M MS unit :=
  let! found :=
    try_except
      (let! hc := getattr_cleanup in ret (Some hc))
      [([CAttributeError], fun _ => ret None)] in
  match found with
  | None => ret tt
  | Some (h, cl) => liftW (pop_and_call h (rev cl))
  end.

Definition quit : M MS unit :=
  do! _consume_cleanups in
  try_finally
    (try_except
       (let! f := getattr_factory in
        let! self := get_self in
        liftW (Factory_close f (browser self)))
       [([CException], fun e =>
           do! liftW (log_msg Error "An exception happened during browser shutdown:") in
           liftW (log_msg Exception "shutdown"))])
    (set_browser None).

Definition open_fresh : M MS (option Handle) :=
  do! liftW (log_msg Info "starting browser") in
  let! self := get_self in
  do! match browser self with
      | None => ret tt
      | Some _ => raise AssertionError
      end in
  let! f := getattr_factory in
  let! h := liftW (Factory_create f []) in
  do! set_browser (Some h) in
  let! self := get_self in
  ret (browser self).

Definition start : M MS (option Handle) :=
  let! self := get_self in
  do! match browser self with
      | Some _ => quit
      | None => ret tt
      end in
  open_fresh.

Definition ensure_open : M MS (option Handle) :=
  let! alive := _is_alive in
  if alive then
    let! self := get_self in ret (browser self)
  else start.

End Code.

(** * Configuration *)

(** [WharfFactory.__init__] and [BrowserManager.from_conf] look into the
    option bag, which the factories above hand on as it is.  Here the bag is
    a Python value with its nested dictionaries and lists, and each
    operation raises what Python raises on a value of another type.  A
    dictionary is the list of its entries in insertion order, its keys being
    strings; a number is an integer (a float behaves as an integer does in
    each operation used here). *)
Inductive jval :=
  | JNone
  | JBool (b : bool)
  | JInt (z : Z)
  | JStr (s : string)
  | JList (items : list jval)
  | JDict (entries : list (string * jval)).

Fixpoint dict_get (d : list (string * jval)) (key : string) : option jval :=
  match d with
  | [] => None
  | (k, v) :: rest => if decide (k = key) then Some v else dict_get rest key
  end.

(** [d[key] = v]: the entry keeps its place, a new key goes last. *)
Fixpoint dict_set (d : list (string * jval)) (key : string) (v : jval)
    : list (string * jval) :=
  match d with
  | [] => [(key, v)]
  | (k, v0) :: rest =>
      if decide (k = key) then (k, v) :: rest
      else (k, v0) :: dict_set rest key v
  end.

(** The entries of [d] without the key; a lookup sees the first entry of a
    key, and taking the key away takes away every entry of it. *)
Fixpoint dict_pop (d : list (string * jval)) (key : string)
    : list (string * jval) :=
  match d with
  | [] => []
  | (k, v) :: rest =>
      if decide (k = key) then dict_pop rest key
      else (k, v) :: dict_pop rest key
  end.

(** [x == s] for a string literal [s]. *)
Definition is_str (x : jval) (s : string) : bool :=
  match x with
  | JStr s' => bool_decide (s' = s)
  | _ => false
  end.

Definition substring_of (needle hay : string) : bool :=
  match String.index 0 needle hay with
  | Some _ => true
  | None => false
  end.

Definition lower_ascii (c : ascii) : ascii :=
  let n := nat_of_ascii c in
  if ((65 <=? n) && (n <=? 90))%nat then ascii_of_nat (n + 32) else c.

(** [str.lower()] on ASCII text; the module only compares its result with
    the ASCII words "chrome" and "firefox". *)
Fixpoint lower (s : string) : string :=
  match s with
  | EmptyString => EmptyString
  | String c rest => String (lower_ascii c) (lower rest)
  end.

Definition obind {A B} (c : outcome A) (k : A -> outcome B) : outcome B :=
  match c with
  | Ret v => k v
  | Exc e => Exc e
  end.

Notation "'let?' x ':=' c 'in' k" := (obind c (fun x => k))
  (at level 10, x name, c at level 100, k at level 200, only parsing).

(** [x.get(key, default)] *)
Definition py_get (x : jval) (key : string) (default : jval) : outcome jval :=
  match x with
  | JDict d =>
      Ret (match dict_get d key with Some v => v | None => default end)
  | _ => Exc (AttributeError "object has no attribute 'get'")
  end.

(** [x[key]] *)
Definition py_getitem (x : jval) (key : string) : outcome jval :=
  match x with
  | JDict d =>
      match dict_get d key with
      | Some v => Ret v
      | None => Exc (KeyError key)
      end
  | JList _ => Exc (TypeError "list indices must be integers or slices, not str")
  | JStr _ => Exc (TypeError "string indices must be integers")
  | _ => Exc (TypeError "object is not subscriptable")
  end.

(** [x[key] = v]; the result is [x] after the assignment. *)
Definition py_setitem (x : jval) (key : string) (v : jval) : outcome jval :=
  match x with
  | JDict d => Ret (JDict (dict_set d key v))
  | JList _ => Exc (TypeError "list indices must be integers or slices, not str")
  | _ => Exc (TypeError "object does not support item assignment")
  end.

(** [s in x] for a string [s]: a key of a dictionary, an element of a
    list, a substring of a string. *)
Definition py_contains (s : string) (x : jval) : outcome bool :=
  match x with
  | JDict d => Ret (bool_decide (is_Some (dict_get d s)))
  | JList items => Ret (existsb (fun item => is_str item s) items)
  | JStr hay => Ret (substring_of s hay)
  | _ => Exc (TypeError "argument is not iterable")
  end.

(** [x.append(v)]; the result is [x] after the call. *)
Definition py_append (x v : jval) : outcome jval :=
  match x with
  | JList items => Ret (JList (items ++ [v]))
  | _ => Exc (AttributeError "object has no attribute 'append'")
  end.

(** [x.pop(key, None)]; the result is [x] after the call. *)
Definition py_pop (x : jval) (key : string) : outcome jval :=
  match x with
  | JDict d => Ret (JDict (dict_pop d key))
  | JList _ => Exc (TypeError "pop expected at most 1 argument, got 2")
  | _ => Exc (AttributeError "object has no attribute 'pop'")
  end.

(** [x.lower()] *)
Definition py_lower (x : jval) : outcome string :=
  match x with
  | JStr s => Ret (lower s)
  | _ => Exc (AttributeError "object has no attribute 'lower'")
  end.

Definition no_sandbox : string := "--no-sandbox".

(** [BrowserFactory.__init__] on the option bag [browser_kwargs]: the
    attributes are set and [_add_missing_options] is run.  The result is the
    bag after the call; when the call raises, the bag is as it was. *)
Definition BrowserFactory_init_options (cls : driver_class)
    (browser_kwargs : jval) : outcome jval :=
  if decide (cls = Remote) then Ret browser_kwargs
  else py_pop browser_kwargs "desired_capabilities".

(** [WharfFactory.__init__] on the option bag.  [co] is the dictionary
    under [chromeOptions] itself when there is one, so that the changes made
    to it are changes of the bag. *)
Definition WharfFactory_init_options (cls : driver_class)
    (browser_kwargs : jval) : outcome jval :=
  let? browser_kwargs := BrowserFactory_init_options cls browser_kwargs in
  let? caps := py_get browser_kwargs "desired_capabilities" (JDict []) in
  let? name := py_get caps "browserName" JNone in
  if is_str name "chrome" then
    let? caps := py_getitem browser_kwargs "desired_capabilities" in
    let? co := py_get caps "chromeOptions" (JDict []) in
    let? has_args := py_contains "args" co in
    let? co :=
      if negb has_args then py_setitem co "args" (JList [JStr no_sandbox])
      else
        let? args := py_getitem co "args" in
        let? present := py_contains no_sandbox args in
        if negb present then
          let? args := py_append args (JStr no_sandbox) in
          py_setitem co "args" args
        else Ret co in
    let? caps := py_setitem caps "chromeOptions" co in
    py_setitem browser_kwargs "desired_capabilities" caps
  else Ret browser_kwargs.

(** What [from_conf] builds: the manager is Closed, and its factory has
    these attributes. *)
Record Built := {
  built_class : driver_class;
  built_kwargs : jval;
  built_wharf : option Wharf
}.

Section FromConf.

(** The attributes of [selenium.webdriver] other than [Remote], [Firefox]
    and [Chrome]. *)
Variable module_has : string -> bool.

(** [Wharf(conf)], of [wharf.py]. *)
Variable new_wharf : jval -> outcome Wharf.

(** [getattr(webdriver, webdriver_name)] *)
Definition getattr_webdriver (webdriver_name : jval) : outcome driver_class :=
  match webdriver_name with
  | JStr name =>
      if decide (name = "Remote") then Ret Remote
      else if decide (name = "Firefox") then Ret Firefox
      else if decide (name = "Chrome") then Ret Chrome
      else if module_has name then Ret (Driver name)
      else Exc (AttributeError "module 'selenium.webdriver' has no such attribute")
  | _ => Exc (TypeError "attribute name must be string")
  end.

(** [browser_conf["webdriver_options"]["desired_capabilities"]["browserName"].lower()] *)
Definition browser_name (browser_conf : jval) : outcome string :=
  let? options := py_getitem browser_conf "webdriver_options" in
  let? caps := py_getitem options "desired_capabilities" in
  let? name := py_getitem caps "browserName" in
  py_lower name.

(** [browser_kwargs["desired_capabilities"][key] = v] *)
Definition set_capability (browser_kwargs : jval) (key : string) (v : jval)
    : outcome jval :=
  let? caps := py_getitem browser_kwargs "desired_capabilities" in
  let? caps := py_setitem caps key v in
  py_setitem browser_kwargs "desired_capabilities" caps.

(** [browser_kwargs["desired_capabilities"].pop(key, None)] *)
Definition pop_capability (browser_kwargs : jval) (key : string)
    : outcome jval :=
  let? caps := py_getitem browser_kwargs "desired_capabilities" in
  let? caps := py_pop caps key in
  py_setitem browser_kwargs "desired_capabilities" caps.

(** [BrowserManager.from_conf(browser_conf)].  The state is the list of the
    wharf clients whose [checkin] is registered to run at exit.
    [browser_kwargs] is the dictionary under [webdriver_options] itself when
    the key is there, and a reading through [browser_conf] sees what was
    written through [browser_kwargs]; only [browserName] is read, and it is
    not written. *)
Definition from_conf (browser_conf : jval) : M (list Wharf) Built :=
  fun at_exit =>
    match
      (let? webdriver_name := py_get browser_conf "webdriver" (JStr "Firefox") in
       let? cls := getattr_webdriver webdriver_name in
       let? browser_kwargs :=
         py_get browser_conf "webdriver_options" (JDict []) in
       let? with_wharf := py_contains "webdriver_wharf" browser_conf in
       Ret (webdriver_name, cls, browser_kwargs, with_wharf))
    with
    | Exc e => (Exc e, at_exit)
    | Ret (webdriver_name, cls, browser_kwargs, true) =>
        match (let? wharf_conf := py_getitem browser_conf "webdriver_wharf" in
               new_wharf wharf_conf) with
        | Exc e => (Exc e, at_exit)
        | Ret wh =>
            (let? name := browser_name browser_conf in
             let? browser_kwargs :=
               if decide (name = "firefox")
               then set_capability browser_kwargs "marionette" (JBool false)
               else Ret browser_kwargs in
             let? browser_kwargs :=
               WharfFactory_init_options cls browser_kwargs in
             Ret {| built_class := cls;
                    built_kwargs := browser_kwargs;
                    built_wharf := Some wh |},
             at_exit ++ [wh])
        end
    | Ret (webdriver_name, cls, browser_kwargs, false) =>
        (let? browser_kwargs :=
           if is_str webdriver_name "Remote" then
             let? name := browser_name browser_conf in
             let? browser_kwargs :=
               if decide (name = "chrome") then
                 let? browser_kwargs :=
                   set_capability browser_kwargs "chromeOptions" (JDict []) in
                 let? browser_kwargs :=
                   set_capability browser_kwargs "chromeOptions"
                     (JDict [("args", JList [JStr no_sandbox])]) in
                 pop_capability browser_kwargs "marionette"
               else Ret browser_kwargs in
             let? name := browser_name browser_conf in
             if decide (name = "firefox")
             then set_capability browser_kwargs "marionette" (JBool false)
             else Ret browser_kwargs
           else Ret browser_kwargs in
         let? browser_kwargs :=
           BrowserFactory_init_options cls browser_kwargs in
         Ret {| built_class := cls;
                built_kwargs := browser_kwargs;
                built_wharf := None |},
         at_exit)
    end.

End FromConf.

(** * Observations and scenarios *)

(** ** Counting the invocations of an operation *)

Section Invocations.

Context {S A : Type}.
Variable retryable_errors : list exn_class.
Variable operation : M S A.

(** The operation with a counter of its invocations next to the state. *)
Definition counted : M (S * nat) A :=
  fun sc =>
    match operation (fst sc) with
    | (r, s') => (r, (s', Datatypes.S (snd sc)))
    end.

(** The state after [n] invocations of the operation in a row. *)
Fixpoint state_after (n : nat) (s : S) : S :=
  match n with
  | 0 => s
  | Datatypes.S k => state_after k (snd (operation s))
  end.

(** The [k]-th invocation in a row from [s] (counted from 0) raises a
    retryable error. *)
Definition fails_retryably (k : nat) (s : S) : Prop :=
  exists e, fst (operation (state_after k s)) = Exc e /\
            isinstance e retryable_errors = true.

End Invocations.

(** ** Events of a run *)

(** The calls on the container lease. *)
Definition lease_event (ev : event) : bool :=
  match ev with
  | ECheckout _ | ECheckin _ => true
  | _ => false
  end.

Definition callback_event (ev : event) : bool :=
  match ev with
  | ECallback _ => true
  | _ => false
  end.

(** A computation only adds events, and those satisfy [P]. *)
Definition emits {A} (P : event -> Prop) (c : M World A) : Prop :=
  forall w r w', c w = (r, w') ->
    exists evs, trace w' = trace w ++ evs /\ Forall P evs.

(** What [BrowserFactory.create] raises for a [URLError] with reason [r]
    that ends its attempts. *)
Definition classified (r : url_reason) : exn :=
  match r with
  | ReasonOSError (Some 111%Z) => backend_unreachable
  | ReasonOSError _ => URLError r
  | ReasonNoErrno _ => AttributeError "object has no attribute 'errno'"
  end.

(** ** Cleanups of a session *)

(** The callbacks attached to session [h], in the order of attachment. *)
Definition attached (w : World) (h : Handle) : list Callback :=
  default [] (cleanup w !! h).

(** The callbacks that [quit] is to pop, the first to be popped first. *)
Definition pending_cleanups (self : BrowserManager) (w : World)
    : list Callback :=
  match browser self with
  | Some h => rev (attached w h)
  | None => []
  end.

(** Each callback of [stack] returns when called in turn after the calls
    [tr]. *)
Fixpoint callbacks_return (env : Env) (tr : list event)
    (stack : list Callback) : bool :=
  match stack with
  | [] => true
  | cb :: below =>
      match responds env tr (ECallback cb) with
      | Ret _ => callbacks_return env (tr ++ [ECallback cb]) below
      | Exc _ => false
      end
  end.

(** [add_cleanup(cb)] for each callback of the list in turn. *)
Fixpoint add_cleanups (callbacks : list Callback) : M MS unit :=
  match callbacks with
  | [] => ret tt
  | cb :: rest => do! add_cleanup cb in add_cleanups rest
  end.

(** The manager after [self.browser = None]. *)
Definition closed (self : BrowserManager) : BrowserManager :=
  {| browser_factory := browser_factory self;
     browser := None;
     factory := factory self |}.

(** The calls of [factory.close(browser)]. *)
Definition close_events (f : Factory) (b : option Handle) : list event :=
  match b with Some h => [EQuit h] | None => [] end ++
  match f with Direct _ => [] | Container wf => [ECheckin (wharf wf)] end.

(** The calls of the closing part of [quit]: none when [self.factory] is
    not bound. *)
Definition closing_events (self : BrowserManager) : list event :=
  match factory self with
  | Some f => close_events f (browser self)
  | None => []
  end.

(** ** Scenarios *)

Definition empty_world : World := {| trace := []; log := []; cleanup := ∅ |}.

Definition firefox_factory : BrowserFactory :=
  {| webdriver_class := Firefox; browser_kwargs := ∅ |}.

Definition remote_factory : BrowserFactory :=
  {| webdriver_class := Remote; browser_kwargs := ∅ |}.

Definition wharf_factory : WharfFactory :=
  {| wharf_base := remote_factory; wharf := 0 |}.

Definition hub_url : pyval := PStr "http://wharf:4444/wd/hub".

(** Every call returns; the driver class gives session 1. *)
Definition quiet_env : Env :=
  {| new_session := fun _ _ _ => Ret 1;
     wharf_config := fun _ _ _ => Ret hub_url;
     responds := fun _ _ => Ret tt |}.

(** The driver class raises a [URLError] whose reason is a message. *)
Definition no_host_env : Env :=
  {| new_session := fun _ _ _ => Exc (URLError (ReasonNoErrno "no host given"));
     wharf_config := fun _ _ _ => Ret hub_url;
     responds := fun _ _ => Ret tt |}.

(** The driver class raises [WebDriverException] at each call. *)
Definition down_env : Env :=
  {| new_session := fun _ _ _ => Exc (WebDriverException "session not created");
     wharf_config := fun _ _ _ => Ret hub_url;
     responds := fun _ _ => Ret tt |}.

(** The wharf server cannot be reached on the first checkout ([URLError],
    errno 113) and answers from then on. *)
Definition flaky_wharf_env : Env :=
  {| new_session := fun _ _ _ => Ret 1;
     wharf_config := fun _ _ _ => Ret hub_url;
     responds := fun tr ev =>
       match tr, ev with
       | [], ECheckout _ => Exc (URLError (ReasonOSError (Some 113%Z)))
       | _, _ => Ret tt
       end |}.

(** A manager that owns session 1, with [factory] bound. *)
Definition open_manager : BrowserManager :=
  {| browser_factory := Direct firefox_factory;
     browser := Some 1;
     factory := Some (Direct firefox_factory) |}.

(** Callback 2 raises; every other call returns. *)
Definition raising_callback_env : Env :=
  {| new_session := fun _ _ _ => Ret 1;
     wharf_config := fun _ _ _ => Ret hub_url;
     responds := fun _ ev =>
       match ev with
       | ECallback 2 => Exc (OtherError "ValueError" "cleanup failed")
       | _ => Ret tt
       end |}.

(** The session's [quit] raises; every other call returns. *)
Definition failing_quit_env : Env :=
  {| new_session := fun _ _ _ => Ret 1;
     wharf_config := fun _ _ _ => Ret hub_url;
     responds := fun _ ev =>
       match ev with
       | EQuit _ => Exc (WebDriverException "chrome not reachable")
       | _ => Ret tt
       end |}.

(** The session has an alert open: reading [current_url] raises. *)
Definition alert_env : Env :=
  {| new_session := fun _ _ _ => Ret 2;
     wharf_config := fun _ _ _ => Ret hub_url;
     responds := fun _ ev =>
       match ev with
       | ECurrentUrl _ => Exc (UnexpectedAlertPresentException "Alert Text: ok?")
       | _ => Ret tt
       end |}.

(** Session 1 has callback 2 attached. *)
Definition one_cleanup_world : World :=
  {| trace := []; log := []; cleanup := {[1 := [2]]} |}.

(** ** Further observations *)

Definition construct_event (ev : event) : bool :=
  match ev with
  | EConstruct _ _ => true
  | _ => false
  end.

Definition quit_event (ev : event) : bool :=
  match ev with
  | EQuit _ => true
  | _ => false
  end.

(** The calls on the lease among [evs], in their order. *)
Definition lease_calls (evs : list event) : list event :=
  List.filter lease_event evs.

(** The calls that [BrowserFactory.create] makes on a session it has
    built. *)
Definition setup_events (h : Handle) : list event :=
  [ESetFileDetector h; EMaximizeWindow h].

(** The options that the direct factory hands to the driver class. *)
Definition processed_kwargs (self : BrowserFactory) : gmap string pyval :=
  let stored := browser_kwargs (_add_missing_options self) in
  match stored !! "keep_alive" with
  | Some _ => <["keep_alive" := PBool false]> stored
  | None => stored
  end.

(** ** Further scenarios *)

(** The session does not answer: reading [current_url] and [quit] both
    raise; the driver class gives session 2. *)
Definition dead_session_env : Env :=
  {| new_session := fun _ _ _ => Ret 2;
     wharf_config := fun _ _ _ => Ret hub_url;
     responds := fun _ ev =>
       match ev with
       | ECurrentUrl _ | EQuit _ =>
           Exc (WebDriverException "chrome not reachable")
       | _ => Ret tt
       end |}.

(** The driver class raises [WebDriverException] at its first call and
    gives session 1 afterwards. *)
Definition flaky_driver_env : Env :=
  {| new_session := fun tr _ _ =>
       if existsb construct_event tr then Ret 1
       else Exc (WebDriverException "session not created");
     wharf_config := fun _ _ _ => Ret hub_url;
     responds := fun _ _ => Ret tt |}.

(** [maximize_window] raises on every session. *)
Definition maximize_fails_env : Env :=
  {| new_session := fun _ _ _ => Ret 1;
     wharf_config := fun _ _ _ => Ret hub_url;
     responds := fun _ ev =>
       match ev with
       | EMaximizeWindow _ => Exc (WebDriverException "no such window")
       | _ => Ret tt
       end |}.

(** The driver class raises a [URLError] with errno 113 (no route to
    host). *)
Definition no_route_env : Env :=
  {| new_session := fun _ _ _ => Exc (URLError (ReasonOSError (Some 113%Z)));
     wharf_config := fun _ _ _ => Ret hub_url;
     responds := fun _ _ => Ret tt |}.

(** The driver class raises an error of another class. *)
Definition value_error_env : Env :=
  {| new_session := fun _ _ _ => Exc (OtherError "ValueError" "bad option");
     wharf_config := fun _ _ _ => Ret hub_url;
     responds := fun _ _ => Ret tt |}.


(** A Closed manager with a container-backed factory bound. *)
Definition closed_wharf_manager : BrowserManager :=
  {| browser_factory := Container wharf_factory;
     browser := None;
     factory := Some (Container wharf_factory) |}.

(** Session 1 has callbacks 1, 2 and 3 attached, in this order. *)
Definition three_cleanups_world : World :=
  {| trace := []; log := []; cleanup := {[1 := [1; 2; 3]]} |}.

(** ** Looking into the option bag *)

(** [kwargs["desired_capabilities"][key]], when both are there. *)
Definition capability (kwargs : jval) (key : string) : option jval :=
  match kwargs with
  | JDict d =>
      match dict_get d "desired_capabilities" with
      | Some (JDict caps) => dict_get caps key
      | _ => None
      end
  | _ => None
  end.

(** [args] with the flag added at the end unless it is there. *)
Definition with_no_sandbox (args : list jval) : list jval :=
  if existsb (fun item => is_str item no_sandbox) args then args
  else args ++ [JStr no_sandbox].

(** ** Configurations *)

(** A chrome with one argument and a binary, for the [Remote] driver. *)
Definition chrome_capabilities : list (string * jval) :=
  [("browserName", JStr "chrome");
   ("chromeOptions",
    JDict [("binary", JStr "/usr/bin/chromium");
           ("args", JList [JStr "--headless"])])].

Definition chrome_bag : list (string * jval) :=
  [("desired_capabilities", JDict chrome_capabilities);
   ("keep_alive", JBool true)].

(** The same browser, spelt with a capital, with [marionette] set. *)
Definition capital_chrome_capabilities : list (string * jval) :=
  [("browserName", JStr "Chrome");
   ("marionette", JBool true);
   ("chromeOptions", JDict [("binary", JStr "/usr/bin/chromium")])].

Definition capital_chrome_bag : list (string * jval) :=
  [("desired_capabilities", JDict capital_chrome_capabilities)].

Definition firefox_capabilities : list (string * jval) :=
  [("browserName", JStr "Firefox"); ("platform", JStr "LINUX")].

Definition firefox_bag : list (string * jval) :=
  [("desired_capabilities", JDict firefox_capabilities)].

Definition wharf_url : jval := JStr "http://wharf.example:4899/".

Definition remote_conf (bag : list (string * jval))
    : list (string * jval) :=
  [("webdriver", JStr "Remote"); ("webdriver_options", JDict bag)].

Definition remote_wharf_conf (bag : list (string * jval))
    : list (string * jval) :=
  [("webdriver", JStr "Remote"); ("webdriver_wharf", wharf_url);
   ("webdriver_options", JDict bag)].

(** The module has no driver besides the three; the wharf client is built
    and is wharf 0. *)
Definition plain_module : string -> bool := fun _ => false.
Definition wharf_zero : jval -> outcome Wharf := fun _ => Ret 0.

(** The wharf server refuses the connection of the first checkout
    ([URLError], errno 111) and answers from then on. *)
Definition refused_checkout_env : Env :=
  {| new_session := fun _ _ _ => Ret 1;
     wharf_config := fun _ _ _ => Ret hub_url;
     responds := fun tr ev =>
       match tr, ev with
       | [], ECheckout _ => Exc (URLError (ReasonOSError (Some 111%Z)))
       | _, _ => Ret tt
       end |}.

(** * Properties *)

(** ** Exceptions and handlers *)

(** Every modelled exception is an instance of [Exception]. *)
Lemma isinstance_Exception (e : exn) : isinstance e [CException] = true.
Proof. destruct e; reflexivity. Qed.

Lemma isinstance_BROWSER_ERRORS (e : exn) :
  isinstance e BROWSER_ERRORS = true <->
  (exists r, e = URLError r) \/ (exists m, e = WebDriverException m) \/
  (exists m, e = UnexpectedAlertPresentException m).
Proof.
  split.
  - destruct e; cbn; try discriminate; eauto.
  - intros [[r ->] | [[m ->] | [m ->]]]; reflexivity.
Qed.

(** ** The retry helper *)

Section Tries.

Context {S A : Type}.
Variable retryable_errors : list exn_class.
Variable operation : M S A.

Local Abbreviation counted := (counted operation).
Local Abbreviation state_after := (state_after operation).
Local Abbreviation fails_retryably := (fails_retryably retryable_errors operation).

Lemma tries_returns_first max_attempts s v s' :
  operation s = (Ret v, s') ->
  tries (Datatypes.S max_attempts) retryable_errors operation s = (Ret v, s').
Proof. intros H. cbn. destruct max_attempts; cbn; rewrite H; reflexivity. Qed.

Lemma tries_not_retryable max_attempts s e s' :
  operation s = (Exc e, s') ->
  isinstance e retryable_errors = false ->
  tries (Datatypes.S max_attempts) retryable_errors operation s = (Exc e, s').
Proof.
  intros H Hn. cbn. destruct max_attempts; cbn; rewrite H; [reflexivity|].
  rewrite Hn. reflexivity.
Qed.

Lemma tries_retries max_attempts s e s' :
  operation s = (Exc e, s') ->
  isinstance e retryable_errors = true ->
  tries (Datatypes.S (Datatypes.S max_attempts)) retryable_errors operation s =
  tries (Datatypes.S max_attempts) retryable_errors operation s'.
Proof. intros H Hr. cbn. rewrite H, Hr. reflexivity. Qed.

(** With two attempts: the first outcome stands unless it is a retryable
    error, and then the second attempt decides. *)
Lemma tries_two s :
  tries 2 retryable_errors operation s =
  match operation s with
  | (Ret v, s') => (Ret v, s')
  | (Exc e, s') =>
      if isinstance e retryable_errors then operation s' else (Exc e, s')
  end.
Proof.
  cbn. destruct (operation s) as [[v | e] s']; [reflexivity|].
  destruct (isinstance e retryable_errors); [|reflexivity].
  destruct (operation s') as [[v' | e'] s'']; reflexivity.
Qed.

Lemma tries_from_all_fail retries_left : forall s c,
  (forall k, k <= retries_left -> fails_retryably k s) ->
  tries_from retries_left retryable_errors counted (s, c) =
  (fst (operation (state_after retries_left s)),
   (state_after (Datatypes.S retries_left) s, c + Datatypes.S retries_left)).
Proof.
  induction retries_left as [|k IH]; intros s c Hall.
  - cbn. unfold counted; cbn.
    destruct (Hall 0 (Nat.le_refl 0)) as [e [He _]]; cbn in He.
    destruct (operation s) as [r s']; cbn in *; subst r.
    f_equal. f_equal. lia.
  - destruct (Hall 0 (Nat.le_0_l _)) as [e [He Hr]]; cbn in He.
    cbn [tries_from]. unfold counted at 1; cbn [fst snd].
    destruct (operation s) as [r s'] eqn:Hop; cbn in He; subst r.
    rewrite Hr, IH.
    + cbn [state_after]. rewrite Hop. cbn [snd]. f_equal. f_equal. lia.
    + intros j Hj. specialize (Hall (Datatypes.S j) ltac:(lia)).
      unfold fails_retryably in *. cbn [state_after] in Hall.
      rewrite Hop in Hall. exact Hall.
Qed.

(** C6: for [max_attempts >= 1] and an operation that raises a retryable
    error on each of its invocations, [tries] invokes the operation exactly
    [max_attempts] times (the counter goes from 0 to [max_attempts], the
    state is the one left by that many invocations in a row) and raises the
    error of the last invocation, as the operation raised it. *)
Theorem tries_exhausts_attempts (max_attempts : nat) (s : S) :
  1 <= max_attempts ->
  (forall k, k < max_attempts -> fails_retryably k s) ->
  exists e,
    fst (operation (state_after (max_attempts - 1) s)) = Exc e /\
    tries max_attempts retryable_errors counted (s, 0) =
    (Exc e, (state_after max_attempts s, max_attempts)).
Proof.
  intros Hpos Hall.
  destruct max_attempts as [|k]; [lia|].
  destruct (Hall k ltac:(lia)) as [e [He _]].
  exists e. replace (Datatypes.S k - 1) with k by lia.
  split; [exact He|].
  cbn [tries]. rewrite tries_from_all_fail.
  - rewrite He. reflexivity.
  - intros j Hj. apply Hall. lia.
Qed.

End Tries.

(** Three attempts at a driver that raises [WebDriverException] at each
    call. *)
Lemma tries_exhausts_attempts_witness :
  exists e,
    fst (construct down_env Firefox ∅
           (state_after (construct down_env Firefox ∅) (3 - 1) empty_world)) =
      Exc e /\
    tries 3 [CWebDriverException] (counted (construct down_env Firefox ∅))
      (empty_world, 0) =
    (Exc e, (state_after (construct down_env Firefox ∅) 3 empty_world, 3)).
Proof.
  apply (tries_exhausts_attempts [CWebDriverException]
           (construct down_env Firefox ∅) 3 empty_world).
  - lia.
  - intros k _. eexists. split; reflexivity.
Defined.

(** ** Events added by the factories *)

Section Frames.

Variable env : Env.

Lemma emits_ret {A} P (v : A) : emits P (ret v).
Proof. intros w r w' [= <- <-]. exists []. by rewrite app_nil_r. Qed.

Lemma emits_raise {A} P e : emits P (@raise World A e).
Proof. intros w r w' [= <- <-]. exists []. by rewrite app_nil_r. Qed.

Lemma emits_bind {A B} P (c : M World A) (k : A -> M World B) :
  emits P c -> (forall v, emits P (k v)) -> emits P (bind c k).
Proof.
  intros Hc Hk w r w' H. unfold bind in H.
  destruct (c w) as [[v | e] w1] eqn:Hcw.
  - destruct (Hc _ _ _ Hcw) as (evs1 & E1 & F1).
    destruct (Hk v _ _ _ H) as (evs2 & E2 & F2).
    exists (evs1 ++ evs2). rewrite E2, E1, app_assoc. split; [done|].
    by apply Forall_app.
  - injection H as <- <-. eauto.
Qed.

Lemma emits_handle {A} P
    (handlers : list (list exn_class * (exn -> M World A))) e :
  Forall (fun ch => forall e, emits P (snd ch e)) handlers ->
  emits P (handle handlers e).
Proof.
  induction 1 as [|[cs h] rest Hch _ IH]; cbn.
  - apply emits_raise.
  - destruct (isinstance e cs); [apply Hch | apply IH].
Qed.

Lemma emits_try_except {A} P (body : M World A) handlers :
  emits P body ->
  Forall (fun ch => forall e, emits P (snd ch e)) handlers ->
  emits P (try_except body handlers).
Proof.
  intros Hb Hh w r w' H. unfold try_except in H.
  destruct (body w) as [[v | e] w1] eqn:Hbw.
  - injection H as <- <-. eauto.
  - destruct (Hb _ _ _ Hbw) as (evs1 & E1 & F1).
    destruct (emits_handle P handlers e Hh _ _ _ H) as (evs2 & E2 & F2).
    exists (evs1 ++ evs2). rewrite E2, E1, app_assoc. split; [done|].
    by apply Forall_app.
Qed.

Lemma emits_tries_from {A} P R (op : M World A) n :
  emits P op -> emits P (tries_from n R op).
Proof.
  intros Hop. induction n as [|n IH]; intros w r w' H; cbn in H.
  - destruct (op w) as [[v | e] w1] eqn:Hw; injection H as <- <-; eauto.
  - destruct (op w) as [[v | e] w1] eqn:Hw.
    + injection H as <- <-; eauto.
    + destruct (isinstance e R).
      * destruct (Hop _ _ _ Hw) as (evs1 & E1 & F1).
        destruct (IH _ _ _ H) as (evs2 & E2 & F2).
        exists (evs1 ++ evs2). rewrite E2, E1, app_assoc. split; [done|].
        by apply Forall_app.
      * injection H as <- <-; eauto.
Qed.

Lemma emits_tries {A} P R (op : M World A) n :
  emits P op -> emits P (tries n R op).
Proof.
  intros Hop. destruct n; [apply emits_raise | by apply emits_tries_from].
Qed.

Lemma emits_call (P : event -> Prop) ev : P ev -> emits P (call env ev).
Proof. intros HP w r w' [= <- <-]. exists [ev]. cbn. eauto. Qed.

Lemma emits_construct (P : event -> Prop) cls kwargs :
  P (EConstruct cls kwargs) -> emits P (construct env cls kwargs).
Proof. intros HP w r w' [= <- <-]. exists [EConstruct cls kwargs]. eauto. Qed.

Lemma emits_log P lvl msg : emits P (log_msg lvl msg).
Proof. intros w r w' [= <- <-]. exists []. by rewrite app_nil_r. Qed.

Lemma emits_config P wh key : emits P (config env wh key).
Proof. intros w r w' [= <- <-]. exists []. by rewrite app_nil_r. Qed.

Lemma emits_processed_browser_args P self :
  emits P (processed_browser_args env self).
Proof.
  assert (Hb : forall f, emits P (BrowserFactory_processed_browser_args f)).
  { intros f. unfold BrowserFactory_processed_browser_args.
    destruct (_ !! _).
    - apply emits_bind; [apply emits_log | intros; apply emits_ret].
    - apply emits_ret. }
  destruct self as [f | f]; cbn; [apply Hb|].
  unfold WharfFactory_processed_browser_args.
  repeat (apply emits_bind; [first [apply emits_config | apply emits_log | apply Hb] | intros]).
  apply emits_ret.
Qed.

(** [BrowserFactory.create] makes no call on the lease. *)
Lemma emits_BrowserFactory_create self :
  emits (fun ev => lease_event ev = false) (BrowserFactory_create env self).
Proof.
  unfold BrowserFactory_create.
  apply emits_bind.
  - apply emits_try_except.
    + apply emits_bind; [apply emits_processed_browser_args|].
      intros kw. apply emits_tries. by apply emits_construct.
    + repeat constructor. intros e; cbn.
      apply emits_bind.
      * unfold reason_errno. destruct e as [[|]| | | | | | | |];
          first [apply emits_ret | apply emits_raise].
      * intros errno. case_decide; apply emits_raise.
  - intros h. apply emits_bind.
    + intros w r w' [= <- <-]. exists [ESetFileDetector h]. eauto.
    + intros _. apply emits_bind; [by apply emits_call | intros; apply emits_ret].
Qed.

Lemma emits_call_BrowserFactory_create self args :
  emits (fun ev => lease_event ev = false)
    (call_BrowserFactory_create env self args).
Proof.
  destruct args; [apply emits_BrowserFactory_create | apply emits_raise].
Qed.

End Frames.

(** ** WharfFactory *)

Section WharfFactoryProperties.

Variable env : Env.

(** C5: [WharfFactory.close(handle)] calls the base close (the session's
    [quit]) and then [checkin], once, whether the base close returns or
    raises; the outcome is that of the base close unless [checkin] itself
    raises. *)
Theorem WharfFactory_close_always_checks_in
    (self : WharfFactory) (h : Handle) (w : World) :
  exists r w',
    WharfFactory_close env self (Some h) w = (r, w') /\
    trace w' = trace w ++ [EQuit h; ECheckin (wharf self)] /\
    r = match responds env (trace w ++ [EQuit h]) (ECheckin (wharf self)) with
        | Ret _ => responds env (trace w) (EQuit h)
        | Exc e => Exc e
        end.
Proof.
  unfold WharfFactory_close, try_finally, BrowserFactory_close, call; cbn.
  destruct (responds env (trace w ++ [EQuit h]) _) as [[] | e];
    do 2 eexists; (split; [reflexivity|]); cbn;
    rewrite <- app_assoc; eauto.
Qed.

(** With no session, the base close does nothing and [checkin] is still
    called. *)
Lemma WharfFactory_close_None (self : WharfFactory) (w : World) :
  WharfFactory_close env self None w =
  (responds env (trace w) (ECheckin (wharf self)),
   record_event (ECheckin (wharf self)) w).
Proof.
  unfold WharfFactory_close, try_finally, BrowserFactory_close, call, ret.
  destruct (responds env (trace w) _) as [[] | e]; reflexivity.
Qed.

(** What an attempt does once the base creation has failed in [w1]. *)
Lemma inner_after_failure self args w e w1 :
  responds env (trace w) (ECheckout (wharf self)) = Ret tt ->
  call_BrowserFactory_create env (Container self) args
    (record_event (ECheckout (wharf self)) w) = (Exc e, w1) ->
  exists w2,
    WharfFactory_inner env self args w =
      (match responds env (trace w1) (ECheckin (wharf self)) with
       | Ret _ => Exc e
       | Exc e' => Exc e'
       end, w2) /\
    trace w2 = trace w1 ++ [ECheckin (wharf self)].
Proof.
  intros Hout Hcreate.
  unfold WharfFactory_inner, try_except, bind at 1, call at 1.
  rewrite Hout, Hcreate.
  cbn [handle]. destruct (isinstance e [CURLError]).
  - unfold bind, log_msg, modify, call, raise; cbn.
    destruct (responds env (trace w1) _) as [[] | e']; eauto.
  - rewrite isinstance_Exception.
    unfold bind, log_msg, modify, call, raise; cbn.
    destruct (responds env (trace w1) _) as [[] | e']; eauto.
Qed.

(** C3: in an attempt of [WharfFactory.create] where [checkout] returns and
    the base creation then raises [e], [checkin] is called before the
    attempt hands its error to the retry helper: the calls of the attempt
    are the checkout, the calls of the base creation (none of them on the
    lease) and one checkin, and the error is [e] unless [checkin] raises. *)
Theorem inner_checks_in_on_failure
    (self : WharfFactory) (args : list pyval) (w w1 : World) (e : exn) :
  responds env (trace w) (ECheckout (wharf self)) = Ret tt ->
  call_BrowserFactory_create env (Container self) args
    (record_event (ECheckout (wharf self)) w) = (Exc e, w1) ->
  exists evs r w2,
    WharfFactory_inner env self args w = (Exc r, w2) /\
    trace w2 =
      trace w ++ [ECheckout (wharf self)] ++ evs ++ [ECheckin (wharf self)] /\
    Forall (fun ev => lease_event ev = false) evs /\
    r = match responds env (trace w1) (ECheckin (wharf self)) with
        | Ret _ => e
        | Exc e' => e'
        end.
Proof.
  intros Hout Hcreate.
  destruct (inner_after_failure _ _ _ _ _ Hout Hcreate) as (w2 & Hin & Htr).
  destruct (emits_call_BrowserFactory_create env _ _ _ _ _ Hcreate)
    as (evs & Hevs & Hfree).
  exists evs.
  exists (match responds env (trace w1) (ECheckin (wharf self)) with
          | Ret _ => e
          | Exc e' => e'
          end), w2.
  split; [|split; [|split]]; [| |exact Hfree|reflexivity].
  - rewrite Hin. by destruct (responds env (trace w1) _).
  - rewrite Htr, Hevs. cbn. by rewrite <- !app_assoc.
Qed.

(** A [try] whose body starts by a call. *)
Lemma try_except_call {A} ev (k : M World A) handlers w :
  try_except (do! call env ev in k) handlers w =
  match responds env (trace w) ev with
  | Ret _ => try_except k handlers (record_event ev w)
  | Exc e => handle handlers e (record_event ev w)
  end.
Proof.
  unfold try_except, bind, call.
  destruct (responds env (trace w) ev); reflexivity.
Qed.

(** An attempt starts by a checkout. *)
Lemma inner_starts_with_checkout self args w :
  exists evs,
    trace (snd (WharfFactory_inner env self args w)) =
    trace w ++ ECheckout (wharf self) :: evs.
Proof.
  unfold WharfFactory_inner. rewrite try_except_call.
  match goal with
  | |- context [try_except ?k ?hs] =>
      assert (Hh : Forall (fun ch => forall e,
                emits (fun _ => True) (snd ch e)) hs);
      [| assert (Hk : emits (fun _ => True) (try_except k hs))]
  end.
  - repeat constructor; intros e; cbn;
      repeat (apply emits_bind;
              [first [apply emits_log | by apply emits_call] | intros]);
      apply emits_raise.
  - apply emits_try_except; [|exact Hh].
    intros w0 r w' H.
    destruct (emits_call_BrowserFactory_create env _ _ _ _ _ H)
      as (evs & -> & _).
    exists evs. split; [done|]. by apply Forall_forall.
  - set (w0 := record_event (ECheckout (wharf self)) w).
    destruct (responds env (trace w) _) as [[] | e0].
    + destruct (try_except _ _ w0) as [r w'] eqn:Hrun; cbn [snd].
      destruct (Hk _ _ _ Hrun) as (evs & -> & _).
      exists evs. subst w0; cbn. by rewrite <- app_assoc.
    + destruct (handle _ e0 w0) as [r w'] eqn:Hrun; cbn [snd].
      destruct (emits_handle _ _ e0 Hh _ _ _ Hrun) as (evs & -> & _).
      exists evs. subst w0; cbn. by rewrite <- app_assoc.
Qed.

(** The two attempts spelt out, for any arguments handed to the base
    method: the outcome of the first attempt stands when it returns or
    raises an error that is neither a [URLError] nor a
    [WebDriverException]; otherwise a second attempt, which starts by its
    own checkout, decides the outcome. *)
Lemma WharfFactory_attempts_unfold
    (self : WharfFactory) (args : list pyval) (w : World) :
  isinstance backend_unreachable BROWSER_ERRORS = false /\
  WharfFactory_attempts env self args w =
    match WharfFactory_inner env self args w with
    | (Ret h, w1) => (Ret h, w1)
    | (Exc e, w1) =>
        if isinstance e [CURLError; CWebDriverException]
        then WharfFactory_inner env self args w1
        else (Exc e, w1)
    end /\
  (forall w1, exists evs,
     trace (snd (WharfFactory_inner env self args w1)) =
     trace w1 ++ ECheckout (wharf self) :: evs).
Proof.
  split; [reflexivity|]. split.
  - unfold WharfFactory_attempts, WHARF_OUTER_RETRIES, BROWSER_ERRORS.
    apply tries_two.
  - intros w1. apply inner_starts_with_checkout.
Qed.

End WharfFactoryProperties.

(** C3 at a run of the code as written: the base method is given [url_key],
    which it does not take, so the base creation fails with [TypeError]
    after the checkout. *)
Lemma inner_checks_in_on_failure_witness :
  exists evs r w2,
    WharfFactory_inner quiet_env wharf_factory [PStr "url_key"] empty_world =
      (Exc r, w2) /\
    trace w2 = [] ++ [ECheckout 0] ++ evs ++ [ECheckin 0] /\
    Forall (fun ev => lease_event ev = false) evs /\
    r = TypeError "create() takes 1 positional argument but more were given".
Proof.
  exact (inner_checks_in_on_failure quiet_env wharf_factory [PStr "url_key"]
           empty_world (record_event (ECheckout 0) empty_world)
           (TypeError "create() takes 1 positional argument but more were given")
           eq_refl eq_refl).
Defined.

(** ** BrowserFactory *)

Section BrowserFactoryProperties.

Variable env : Env.

(** When the creation attempts end with a [URLError], [create] raises what
    [classified] says, with no further call. *)
Lemma BrowserFactory_create_classifies self w kwargs wp r w1 :
  processed_browser_args env self w = (Ret kwargs, wp) ->
  tries 2 [CWebDriverException]
    (construct env (webdriver_class (base_of self)) kwargs) wp =
    (Exc (URLError r), w1) ->
  BrowserFactory_create env self w = (Exc (classified r), w1).
Proof.
  intros Hargs Htries.
  unfold BrowserFactory_create, bind at 1, try_except, bind at 1.
  rewrite Hargs, Htries. cbn [handle].
  replace (isinstance (URLError r) [CURLError]) with true by reflexivity.
  unfold bind, reason_errno, classified.
  destruct r as [[z|]|d]; cbn; try reflexivity.
  case_decide as Hz.
  - injection Hz as ->. reflexivity.
  - destruct z as [|p|p]; try reflexivity.
    destruct (decide (p = 111%positive)) as [->|Hp]; [done|].
    do 7 (destruct p as [p|p|]; try reflexivity). all: done.
Qed.

(** A [URLError] that carries an OS error is turned into the
    backend-unreachable error when its number is 111, and propagates
    unchanged otherwise (also when it has no number). *)
Lemma BrowserFactory_create_OSError self w kwargs wp errno w1 :
  processed_browser_args env self w = (Ret kwargs, wp) ->
  tries 2 [CWebDriverException]
    (construct env (webdriver_class (base_of self)) kwargs) wp =
    (Exc (URLError (ReasonOSError errno)), w1) ->
  BrowserFactory_create env self w =
    (if decide (errno = Some 111%Z) then Exc backend_unreachable
     else Exc (URLError (ReasonOSError errno)), w1).
Proof.
  intros Hargs Htries.
  rewrite (BrowserFactory_create_classifies _ _ _ _ _ _ Hargs Htries).
  case_decide as Hz; [by subst|].
  destruct errno as [z|]; [|reflexivity]. cbn.
  destruct z as [|p|p]; try reflexivity.
  do 7 (destruct p as [p|p|]; try reflexivity). all: done.
Qed.

(** C9, where the code departs from it: a [URLError] whose reason has no
    [errno] attribute (a message string) is not propagated unchanged; the
    handler's own [AttributeError] is raised in its place. *)
Theorem BrowserFactory_create_reason_without_errno
    (self : Factory) (w wp w1 : World) (kwargs : gmap string pyval)
    (description : string) :
  processed_browser_args env self w = (Ret kwargs, wp) ->
  tries 2 [CWebDriverException]
    (construct env (webdriver_class (base_of self)) kwargs) wp =
    (Exc (URLError (ReasonNoErrno description)), w1) ->
  BrowserFactory_create env self w =
    (Exc (AttributeError "object has no attribute 'errno'"), w1) /\
  AttributeError "object has no attribute 'errno'" <>
    URLError (ReasonNoErrno description).
Proof.
  intros Hargs Htries. split; [|discriminate].
  exact (BrowserFactory_create_classifies _ _ _ _ _ _ Hargs Htries).
Qed.

End BrowserFactoryProperties.

Lemma BrowserFactory_create_reason_without_errno_witness :
  BrowserFactory_create no_host_env (Direct firefox_factory) empty_world =
    (Exc (AttributeError "object has no attribute 'errno'"),
     record_event (EConstruct Firefox ∅) empty_world) /\
  AttributeError "object has no attribute 'errno'" <>
    URLError (ReasonNoErrno "no host given").
Proof.
  exact (BrowserFactory_create_reason_without_errno no_host_env
           (Direct firefox_factory) empty_world empty_world
           (record_event (EConstruct Firefox ∅) empty_world) ∅
           "no host given" eq_refl eq_refl).
Defined.

(** ** BrowserManager: opening and probing *)

Section ManagerProperties.

Variable env : Env.

(** C1, where the code departs from it: on a manager as its constructor
    leaves it (Closed, [browser_factory] set), [open_fresh] raises
    [AttributeError] on reading [self.factory]; no call is made, so the
    factory's [create] is not called, and no handle is stored. *)
Theorem open_fresh_after_init_raises (browser_factory : Factory) (w : World) :
  open_fresh env (BrowserManager_init browser_factory, w) =
  (Exc (AttributeError "'BrowserManager' object has no attribute 'factory'"),
   (BrowserManager_init browser_factory,
    record_log Info "starting browser" w)).
Proof. reflexivity. Qed.

(** The precondition is enforced: with a handle owned, [open_fresh] raises
    [AssertionError] and changes nothing. *)
Lemma open_fresh_owned self w h :
  browser self = Some h ->
  open_fresh env (self, w) =
  (Exc AssertionError, (self, record_log Info "starting browser" w)).
Proof.
  intros Hb. unfold open_fresh, bind, liftW, log_msg, modify, get_self; cbn.
  rewrite Hb. reflexivity.
Qed.

(** With [factory] bound to a direct factory on a Closed manager,
    [open_fresh] calls its [create] once; the handle returned is stored and
    returned. *)
Lemma open_fresh_bound_direct self w f h w' :
  browser self = None ->
  factory self = Some (Direct f) ->
  BrowserFactory_create env (Direct f)
    (record_log Info "starting browser" w) = (Ret h, w') ->
  open_fresh env (self, w) =
  (Ret (Some h),
   ({| browser_factory := browser_factory self;
       browser := Some h;
       factory := factory self |}, w')).
Proof.
  intros Hb Hf Hc.
  unfold open_fresh, bind, liftW, log_msg, modify, get_self, getattr_factory,
    get_self, bind, set_browser, modify; cbn.
  rewrite Hb; cbn. rewrite Hf; cbn. rewrite Hc; cbn. rewrite ?Hf.
  reflexivity.
Qed.

(** With [factory] bound to a container-backed factory, the call
    [create()] lacks [url_key]: [TypeError], before any checkout. *)
Lemma open_fresh_bound_container self w f :
  browser self = None ->
  factory self = Some (Container f) ->
  open_fresh env (self, w) =
  (Exc (TypeError "create() missing 1 required positional argument: 'url_key'"),
   (self, record_log Info "starting browser" w)).
Proof.
  intros Hb Hf.
  unfold open_fresh, bind, liftW, log_msg, modify, get_self, getattr_factory,
    get_self, bind; cbn.
  rewrite Hb; cbn. rewrite Hf; cbn. reflexivity.
Qed.

(** The world after the probe has read [current_url] of session [h]. *)
Lemma _is_alive_run self w h :
  browser self = Some h ->
  _is_alive env (self, w) =
  (match responds env (trace w) (ECurrentUrl h) with
   | Ret _ => Ret true
   | Exc (UnexpectedAlertPresentException _) => Ret true
   | Exc _ => Ret false
   end,
   (self,
    match responds env (trace w) (ECurrentUrl h) with
    | Ret _ | Exc (UnexpectedAlertPresentException _) =>
        record_event (ECurrentUrl h) (record_log Debug "alive check" w)
    | Exc _ =>
        record_log Exception "browser in unknown state, considering dead"
          (record_event (ECurrentUrl h) (record_log Debug "alive check" w))
    end)).
Proof.
  intros Hb.
  unfold _is_alive, bind, try_except, liftW, log_msg, modify, get_self, call;
    cbn.
  rewrite Hb; cbn.
  destruct (responds env (trace w) (ECurrentUrl h)) as [[] | e];
    [reflexivity|].
  destruct e; reflexivity.
Qed.

Lemma _is_alive_closed self w :
  browser self = None ->
  _is_alive env (self, w) =
  (Ret false,
   (self, record_log Exception "browser in unknown state, considering dead"
            (record_log Debug "alive check" w))).
Proof.
  intros Hb.
  unfold _is_alive, bind, try_except, liftW, log_msg, modify, get_self; cbn.
  rewrite Hb. reflexivity.
Qed.

(** C8: when reading [current_url] of the owned handle raises
    [UnexpectedAlertPresentException], the probe answers alive and
    [ensure_open] returns the owned handle; the manager is unchanged and the
    only call made is the probe's read, so [create] is not called. *)
Theorem ensure_open_alert_keeps_handle
    (self : BrowserManager) (w : World) (h : Handle) (msg : string) :
  browser self = Some h ->
  responds env (trace w) (ECurrentUrl h) =
    Exc (UnexpectedAlertPresentException msg) ->
  _is_alive env (self, w) =
    (Ret true,
     (self, record_event (ECurrentUrl h) (record_log Debug "alive check" w))) /\
  ensure_open env (self, w) =
    (Ret (Some h),
     (self, record_event (ECurrentUrl h) (record_log Debug "alive check" w))) /\
  trace (snd (snd (ensure_open env (self, w)))) = trace w ++ [ECurrentUrl h].
Proof.
  intros Hb Halert.
  assert (Hprobe : _is_alive env (self, w) =
    (Ret true,
     (self, record_event (ECurrentUrl h) (record_log Debug "alive check" w)))).
  { rewrite (_is_alive_run _ _ _ Hb), Halert. reflexivity. }
  assert (Hopen : ensure_open env (self, w) =
    (Ret (Some h),
     (self, record_event (ECurrentUrl h) (record_log Debug "alive check" w)))).
  { unfold ensure_open, bind at 1. rewrite Hprobe.
    unfold bind, get_self, ret; cbn. by rewrite Hb. }
  split; [exact Hprobe|]. split; [exact Hopen|].
  rewrite Hopen. reflexivity.
Qed.

(** C10: the probe returns a boolean in every state of the manager and
    leaves the manager as it is.  On a Closed manager reading [current_url]
    of [None] raises [AttributeError], which the probe takes for a dead
    session: it answers [False] with no call made, and [ensure_open] goes
    on with [start], which on a Closed manager is [open_fresh]. *)
Theorem _is_alive_total (self : BrowserManager) (w : World) :
  (exists b w', _is_alive env (self, w) = (Ret b, (self, w'))) /\
  (browser self = None ->
   exists w',
     _is_alive env (self, w) = (Ret false, (self, w')) /\
     trace w' = trace w /\
     ensure_open env (self, w) = start env (self, w') /\
     start env (self, w') = open_fresh env (self, w')).
Proof.
  split.
  - destruct (browser self) as [h|] eqn:Hb.
    + rewrite (_is_alive_run _ _ _ Hb).
      destruct (responds env (trace w) (ECurrentUrl h)) as [[] | e];
        [eauto|]. destruct e; eauto.
    + rewrite (_is_alive_closed _ _ Hb). eauto.
  - intros Hb. eexists. split; [apply (_is_alive_closed _ _ Hb)|].
    split; [reflexivity|]. split.
    + unfold ensure_open, bind at 1. rewrite (_is_alive_closed _ _ Hb).
      reflexivity.
    + unfold start, bind at 1, get_self. unfold bind at 1. cbn [fst].
      rewrite Hb. reflexivity.
Qed.

End ManagerProperties.

Lemma ensure_open_alert_keeps_handle_witness :
  _is_alive alert_env (open_manager, empty_world) =
    (Ret true,
     (open_manager,
      record_event (ECurrentUrl 1)
        (record_log Debug "alive check" empty_world))) /\
  ensure_open alert_env (open_manager, empty_world) =
    (Ret (Some 1),
     (open_manager,
      record_event (ECurrentUrl 1)
        (record_log Debug "alive check" empty_world))) /\
  trace (snd (snd (ensure_open alert_env (open_manager, empty_world)))) =
    trace empty_world ++ [ECurrentUrl 1].
Proof.
  exact (ensure_open_alert_keeps_handle alert_env open_manager empty_world 1
           "Alert Text: ok?" eq_refl eq_refl).
Defined.

Lemma _is_alive_total_witness :
  exists w',
    _is_alive quiet_env
      (BrowserManager_init (Direct firefox_factory), empty_world) =
      (Ret false, (BrowserManager_init (Direct firefox_factory), w')) /\
    trace w' = trace empty_world /\
    ensure_open quiet_env
      (BrowserManager_init (Direct firefox_factory), empty_world) =
      start quiet_env (BrowserManager_init (Direct firefox_factory), w') /\
    start quiet_env (BrowserManager_init (Direct firefox_factory), w') =
      open_fresh quiet_env (BrowserManager_init (Direct firefox_factory), w').
Proof.
  exact (proj2 (_is_alive_total quiet_env
                  (BrowserManager_init (Direct firefox_factory)) empty_world)
           eq_refl).
Defined.

(** ** BrowserManager: cleanups and quit *)

Section QuitProperties.

Variable env : Env.

(** The part of [quit] after the cleanups. *)
Local Abbreviation closing_part :=
  (try_finally
     (try_except
        (let! f := getattr_factory in
         let! self := get_self in
         liftW (Factory_close env f (browser self)))
        [([CException], fun e =>
            do! liftW (log_msg Error "An exception happened during browser shutdown:") in
            liftW (log_msg Exception "shutdown"))])
     (set_browser None)).

Lemma quit_unfold s :
  quit env s =
  match _consume_cleanups env s with
  | (Ret _, s1) => closing_part s1
  | (Exc e, s1) => (Exc e, s1)
  end.
Proof. reflexivity. Qed.

Lemma Factory_close_trace f b w :
  trace (snd (Factory_close env f b w)) = trace w ++ close_events f b.
Proof.
  destruct f as [f | f], b as [h|]; cbn;
    unfold WharfFactory_close, try_finally, BrowserFactory_close, call, ret;
    cbn; rewrite ?app_nil_r; try reflexivity.
  - destruct (responds env (trace w ++ [EQuit h]) _) as [[] | e]; cbn;
      by rewrite <- app_assoc.
  - destruct (responds env (trace w) _) as [[] | e]; reflexivity.
Qed.

(** The closing part returns in every case and clears the handle. *)
Lemma closing_part_returns self w :
  exists w',
    closing_part (self, w) = (Ret tt, (closed self, w')) /\
    trace w' = trace w ++ closing_events self.
Proof.
  unfold try_finally, try_except, bind at 1, getattr_factory, bind at 1,
    get_self, closing_events.
  cbn [fst snd].
  destruct (factory self) as [f|] eqn:Hf.
  - unfold ret at 1, bind at 1, liftW at 1. cbn [fst snd].
    pose proof (Factory_close_trace f (browser self) w) as Htr.
    destruct (Factory_close env f (browser self) w) as [[[] | e] w1];
      cbn [snd] in Htr.
    + eexists; split; [|exact Htr]. cbn. unfold closed. by rewrite Hf.
    + cbn [handle]. rewrite isinstance_Exception.
      eexists; split; [cbn; unfold closed; rewrite Hf; reflexivity|].
      exact Htr.
  - unfold raise at 1. cbn [handle]. rewrite isinstance_Exception.
    eexists; split; [cbn; unfold closed; rewrite Hf; reflexivity|].
    cbn. by rewrite app_nil_r.
Qed.

Lemma pop_and_call_returns h stack : forall w,
  callbacks_return env (trace w) stack = true ->
  exists w1,
    pop_and_call env h stack w = (Ret tt, w1) /\
    trace w1 = trace w ++ map ECallback stack.
Proof.
  induction stack as [|cb below IH]; intros w Hret.
  - exists w. cbn. by rewrite app_nil_r.
  - cbn in Hret.
    destruct (responds env (trace w) (ECallback cb)) as [[] | e] eqn:Hcb;
      [|discriminate].
    cbn [pop_and_call]. unfold bind at 1, modify at 1.
    unfold bind at 1, call at 1. cbn [trace set_cleanup]. rewrite Hcb.
    destruct (IH (record_event (ECallback cb)
                    (set_cleanup h (rev below) w)) Hret) as (w1 & Hrun & Htr).
    exists w1. split; [exact Hrun|].
    rewrite Htr. cbn. by rewrite <- app_assoc.
Qed.

(** The first callback that raises ends the loop with its exception. *)
Lemma pop_and_call_raises h cb below w e :
  responds env (trace w) (ECallback cb) = Exc e ->
  pop_and_call env h (cb :: below) w =
  (Exc e, record_event (ECallback cb) (set_cleanup h (rev below) w)).
Proof.
  intros Hcb. cbn [pop_and_call]. unfold bind at 1, modify at 1.
  unfold bind at 1, call at 1. cbn [trace set_cleanup]. by rewrite Hcb.
Qed.

Lemma _consume_cleanups_returns self w :
  callbacks_return env (trace w) (pending_cleanups self w) = true ->
  exists w1,
    _consume_cleanups env (self, w) = (Ret tt, (self, w1)) /\
    trace w1 = trace w ++ map ECallback (pending_cleanups self w).
Proof.
  unfold pending_cleanups, attached, _consume_cleanups, bind at 1,
    try_except, bind at 1, getattr_cleanup, bind at 1, get_self.
  cbn [fst snd].
  destruct (browser self) as [h|].
  - unfold bind at 1, liftW at 1, get. cbn [fst snd].
    destruct (cleanup w !! h) as [cl|]; cbn [default].
    + intros Hret. unfold ret at 1 2. unfold liftW. cbn [fst snd].
      destruct (pop_and_call_returns h (rev cl) w Hret) as (w1 & -> & Htr).
      eauto.
    + intros _. exists w. cbn. by rewrite app_nil_r.
  - intros _. exists w. cbn. by rewrite app_nil_r.
Qed.

Lemma add_cleanup_attaches self w h cb :
  browser self = Some h ->
  exists w1,
    add_cleanup cb (self, w) = (Ret tt, (self, w1)) /\
    trace w1 = trace w /\
    attached w1 h = attached w h ++ [cb].
Proof.
  intros Hb.
  unfold add_cleanup, bind at 1, get_self. cbn [fst]. rewrite Hb.
  unfold bind at 1, try_except, bind at 1, getattr_cleanup, bind at 1,
    get_self. cbn [fst]. rewrite Hb.
  unfold bind at 1, liftW at 1, get. cbn [fst snd]. unfold attached.
  destruct (cleanup w !! h) as [cl|] eqn:Hcl; cbn.
  - eexists; split; [reflexivity|]. split; [reflexivity|].
    cbn. by rewrite lookup_insert_eq.
  - eexists; split; [reflexivity|]. split; [reflexivity|].
    cbn. by rewrite lookup_insert_eq.
Qed.

Lemma add_cleanups_attach self h callbacks : forall w,
  browser self = Some h ->
  exists w1,
    add_cleanups callbacks (self, w) = (Ret tt, (self, w1)) /\
    trace w1 = trace w /\
    attached w1 h = attached w h ++ callbacks.
Proof.
  induction callbacks as [|cb rest IH]; intros w Hb.
  - exists w. cbn. by rewrite app_nil_r.
  - destruct (add_cleanup_attaches self w h cb Hb) as (w1 & Hadd & Htr & Hat).
    destruct (IH w1 Hb) as (w2 & Hrest & Htr2 & Hat2).
    exists w2. cbn [add_cleanups]. unfold bind at 1. rewrite Hadd, Hrest.
    split; [reflexivity|]. split; [congruence|].
    rewrite Hat2, Hat, <- app_assoc. reflexivity.
Qed.

(** C2, as amended: when the cleanup callbacks that are attached return,
    [quit] returns and leaves the manager Closed, whatever the factory's
    [close] does (return or raise) and whether or not [self.factory] is
    bound. *)
Theorem quit_always_closes (self : BrowserManager) (w : World) :
  callbacks_return env (trace w) (pending_cleanups self w) = true ->
  exists w',
    quit env (self, w) = (Ret tt, (closed self, w')) /\
    browser (closed self) = None.
Proof.
  intros Hret.
  destruct (_consume_cleanups_returns self w Hret) as (w1 & Hrun & _).
  destruct (closing_part_returns self w1) as (w' & Hclose & _).
  exists w'. split; [|reflexivity].
  rewrite quit_unfold, Hrun. exact Hclose.
Qed.

(** A callback that raises ends [quit]: the exception propagates and the
    closing part is not run. *)
Lemma quit_cleanup_raises s e s1 :
  _consume_cleanups env s = (Exc e, s1) ->
  quit env s = (Exc e, s1).
Proof. intros H. by rewrite quit_unfold, H. Qed.

Lemma closing_events_no_callback self :
  Forall (fun ev => callback_event ev = false) (closing_events self).
Proof.
  unfold closing_events, close_events.
  destruct (factory self) as [[f | f]|], (browser self); repeat constructor.
Qed.

(** C7, as amended: callbacks attached by [add_cleanup] to the owned handle
    are, when each of them returns, called by [quit] once each, the last
    attached first (after them those that were attached before, in the same
    reverse order), and the calls of the factory's [close] come after all
    of them. *)
Theorem quit_runs_cleanups_in_reverse
    (self : BrowserManager) (w : World) (h : Handle)
    (callbacks : list Callback) :
  browser self = Some h ->
  callbacks_return env (trace w) (rev (attached w h ++ callbacks)) = true ->
  exists w1 w2,
    add_cleanups callbacks (self, w) = (Ret tt, (self, w1)) /\
    quit env (self, w1) = (Ret tt, (closed self, w2)) /\
    trace w2 =
      trace w ++ map ECallback (rev callbacks ++ rev (attached w h))
              ++ closing_events self /\
    Forall (fun ev => callback_event ev = false) (closing_events self).
Proof.
  intros Hb Hret.
  destruct (add_cleanups_attach self h callbacks w Hb)
    as (w1 & Hadd & Htr & Hat).
  assert (Hpending : pending_cleanups self w1 = rev (attached w h ++ callbacks)).
  { unfold pending_cleanups. by rewrite Hb, Hat. }
  assert (Hret1 : callbacks_return env (trace w1) (pending_cleanups self w1)
                  = true) by (by rewrite Hpending, Htr).
  destruct (_consume_cleanups_returns self w1 Hret1) as (w1' & Hrun & Htr1).
  destruct (closing_part_returns self w1') as (w2 & Hclose & Htr2).
  exists w1, w2. split; [exact Hadd|]. split.
  - rewrite quit_unfold, Hrun. exact Hclose.
  - split; [|apply closing_events_no_callback].
    rewrite Htr2, Htr1, Hpending, Htr, rev_app_distr, <- app_assoc.
    reflexivity.
Qed.

End QuitProperties.

(** C2, as stated, fails: the callback attached to the owned session
    raises; [quit] propagates its exception, the factory's [close] is not
    called and the manager still owns the handle. *)
Lemma quit_propagates_cleanup_error :
  fst (quit raising_callback_env (open_manager, one_cleanup_world)) =
    Exc (OtherError "ValueError" "cleanup failed") /\
  browser (fst (snd (quit raising_callback_env
                       (open_manager, one_cleanup_world)))) = Some 1 /\
  trace (snd (snd (quit raising_callback_env
                     (open_manager, one_cleanup_world)))) = [ECallback 2].
Proof. repeat split; vm_compute; reflexivity. Qed.

(** The session's [quit] raises under the factory's [close]; the callback
    returns: the manager [quit] returns and the handle is cleared. *)
Lemma quit_always_closes_witness :
  exists w',
    quit failing_quit_env (open_manager, one_cleanup_world) =
      (Ret tt, (closed open_manager, w')) /\
    browser (closed open_manager) = None.
Proof.
  exact (quit_always_closes failing_quit_env open_manager one_cleanup_world
           eq_refl).
Defined.

(** C7, as stated, fails: callbacks 1 and 2 are attached in this order and
    callback 2 raises; [quit] calls callback 2 and propagates its exception;
    callback 1 is not called and stays attached. *)
Lemma quit_skips_cleanups_after_error :
  let attached_state := snd (add_cleanups [1; 2] (open_manager, empty_world)) in
  fst (quit raising_callback_env attached_state) =
    Exc (OtherError "ValueError" "cleanup failed") /\
  trace (snd (snd (quit raising_callback_env attached_state))) =
    [ECallback 2] /\
  attached (snd (snd (quit raising_callback_env attached_state))) 1 = [1].
Proof. repeat split; vm_compute; reflexivity. Qed.

Lemma quit_runs_cleanups_in_reverse_witness :
  exists w1 w2,
    add_cleanups [3; 4] (open_manager, empty_world) =
      (Ret tt, (open_manager, w1)) /\
    quit failing_quit_env (open_manager, w1) =
      (Ret tt, (closed open_manager, w2)) /\
    trace w2 =
      trace empty_world ++ map ECallback (rev [3; 4] ++ rev (attached empty_world 1))
        ++ closing_events open_manager /\
    Forall (fun ev => callback_event ev = false) (closing_events open_manager).
Proof.
  exact (quit_runs_cleanups_in_reverse failing_quit_env open_manager
           empty_world 1 [3; 4] eq_refl eq_refl).
Defined.

(** Two callbacks on a fresh session: the second is called first, then the
    first, then the session is closed. *)
Example quit_two_cleanups :
  trace (snd (snd (quit quiet_env
                     (snd (add_cleanups [1; 2] (open_manager, empty_world)))))) =
  [ECallback 2; ECallback 1; EQuit 1].
Proof. vm_compute. reflexivity. Qed.

(** * Further properties *)

(** ** BrowserFactory: options *)

Section OptionProperties.

Variable env : Env.

(** The direct factory hands [processed_kwargs] to the driver class. *)
Lemma BrowserFactory_processed_browser_args_run self w :
  exists w',
    BrowserFactory_processed_browser_args self w =
      (Ret (processed_kwargs self), w') /\
    trace w' = trace w.
Proof.
  unfold BrowserFactory_processed_browser_args, processed_kwargs.
  destruct (browser_kwargs (_add_missing_options self) !! "keep_alive");
    eexists; split; reflexivity.
Qed.

(** [processed_browser_args] of the direct factory returns, makes no call,
    and gives the stored options with two adjustments: the entry
    [desired_capabilities] is dropped unless the driver class is [Remote],
    and an entry [keep_alive], when present, is forced to [False] (it is not
    added when absent).  Every other entry is passed as it is. *)
Theorem BrowserFactory_processed_browser_args_spec
    (self : BrowserFactory) (w : World) :
  exists kwargs w',
    BrowserFactory_processed_browser_args self w = (Ret kwargs, w') /\
    trace w' = trace w /\
    kwargs !! "desired_capabilities" =
      (if decide (webdriver_class self = Remote)
       then browser_kwargs self !! "desired_capabilities" else None) /\
    kwargs !! "keep_alive" =
      (match browser_kwargs self !! "keep_alive" with
       | Some _ => Some (PBool false)
       | None => None
       end) /\
    (forall key, key <> "desired_capabilities" -> key <> "keep_alive" ->
       kwargs !! key = browser_kwargs self !! key).
Proof.
  unfold BrowserFactory_processed_browser_args, _add_missing_options.
  destruct (decide (webdriver_class self = Remote)) as [HR | HR]; cbn [browser_kwargs].
  - destruct (browser_kwargs self !! "keep_alive") as [v|] eqn:Hk.
    + do 2 eexists. split; [reflexivity|]. split; [reflexivity|].
      split; [by rewrite lookup_insert_ne|].
      split; [by rewrite lookup_insert_eq|].
      intros key _ Hne. by rewrite lookup_insert_ne.
    + do 2 eexists. split; [reflexivity|]. split; [reflexivity|].
      split; [done|]. split; [done|]. done.
  - rewrite lookup_delete_ne by done.
    destruct (browser_kwargs self !! "keep_alive") as [v|] eqn:Hk.
    + do 2 eexists. split; [reflexivity|]. split; [reflexivity|].
      split; [by rewrite lookup_insert_ne, lookup_delete_eq|].
      split; [by rewrite lookup_insert_eq|].
      intros key Hd Hne. by rewrite lookup_insert_ne, lookup_delete_ne.
    + do 2 eexists. split; [reflexivity|]. split; [reflexivity|].
      split; [by rewrite lookup_delete_eq|].
      split; [by rewrite lookup_delete_ne|].
      intros key Hd Hne. by rewrite lookup_delete_ne.
Qed.

(** Dropping [desired_capabilities] twice is dropping it once: the method
    can be run at construction and again at each [processed_browser_args]. *)
Lemma _add_missing_options_idempotent (self : BrowserFactory) :
  _add_missing_options (_add_missing_options self) = _add_missing_options self.
Proof.
  unfold _add_missing_options.
  destruct (decide (webdriver_class self = Remote)) as [HR | HR]; cbn.
  - by rewrite decide_True.
  - rewrite decide_False by done. cbn. f_equal.
    apply map_eq. intros k. destruct (decide (k = "desired_capabilities")) as [->|Hk].
    + by rewrite !lookup_delete_eq.
    + by rewrite !lookup_delete_ne.
Qed.

(** [processed_browser_args] of the container-backed factory: when the
    wharf configuration has both entries, the result is the result of the
    base method with [command_executor] set to the configured
    [webdriver_url], whatever the stored options said; no call is made. *)
Theorem WharfFactory_processed_browser_args_spec
    (self : WharfFactory) (w : World) (url display : pyval) :
  wharf_config env (trace w) (wharf self) "webdriver_url" = Ret url ->
  wharf_config env (trace w) (wharf self) "vnc_display" = Ret display ->
  exists base_kwargs w',
    BrowserFactory_processed_browser_args (wharf_base self)
      (record_log Info "tests can be viewed via vnc on display {}"
         (record_log Info "webdriver command executor set to %s" w)) =
      (Ret base_kwargs, w') /\
    WharfFactory_processed_browser_args env self w =
      (Ret (<["command_executor" := url]> base_kwargs), w') /\
    trace w' = trace w /\
    (<["command_executor" := url]> base_kwargs) !! "command_executor" =
      Some url /\
    (forall key, key <> "command_executor" ->
       (<["command_executor" := url]> base_kwargs) !! key =
       base_kwargs !! key).
Proof.
  intros Hurl Hvnc.
  destruct (BrowserFactory_processed_browser_args_run (wharf_base self)
    (record_log Info "tests can be viewed via vnc on display {}"
       (record_log Info "webdriver command executor set to %s" w)))
    as (w' & Hrun & Htr).
  exists (processed_kwargs (wharf_base self)), w'. split; [exact Hrun|].
  split; [|split; [exact Htr | split]].
  - unfold WharfFactory_processed_browser_args, bind at 1, config at 1.
    rewrite Hurl. unfold bind at 1, config at 1. rewrite Hvnc.
    unfold bind at 1, log_msg at 1, modify at 1.
    unfold bind at 1, log_msg at 1, modify at 1.
    unfold bind at 1. rewrite Hrun. reflexivity.
  - by rewrite lookup_insert_eq.
  - intros key Hne. by rewrite lookup_insert_ne.
Qed.

(** A missing entry of the wharf configuration ends the method with the
    error of the lookup: nothing is logged and no call is made. *)
Theorem WharfFactory_processed_browser_args_missing_url
    (self : WharfFactory) (w : World) (e : exn) :
  wharf_config env (trace w) (wharf self) "webdriver_url" = Exc e ->
  WharfFactory_processed_browser_args env self w = (Exc e, w).
Proof.
  intros Hurl.
  unfold WharfFactory_processed_browser_args, bind at 1, config at 1.
  by rewrite Hurl.
Qed.

End OptionProperties.

(** ** BrowserFactory: creation *)

Section CreateProperties.

Variable env : Env.

Lemma processed_browser_args_trace self w r w' :
  processed_browser_args env self w = (r, w') -> trace w' = trace w.
Proof.
  intros H.
  destruct (emits_processed_browser_args env (fun _ => False) self _ _ _ H)
    as (evs & -> & Hf).
  destruct evs as [|ev evs]; [by rewrite app_nil_r|].
  by inversion Hf.
Qed.

(** [create] once the options are there: the outcome of the attempts, then
    the handler or the two calls on the new session. *)
Lemma BrowserFactory_create_run self w kwargs wp :
  processed_browser_args env self w = (Ret kwargs, wp) ->
  BrowserFactory_create env self w =
  match tries 2 [CWebDriverException]
          (construct env (webdriver_class (base_of self)) kwargs) wp with
  | (Ret h, w1) =>
      (match responds env (trace w1 ++ [ESetFileDetector h])
               (EMaximizeWindow h) with
       | Ret _ => Ret h
       | Exc e => Exc e
       end,
       record_event (EMaximizeWindow h) (record_event (ESetFileDetector h) w1))
  | (Exc (URLError r), w1) => (Exc (classified r), w1)
  | (Exc e, w1) => (Exc e, w1)
  end.
Proof.
  intros Hargs.
  destruct (tries 2 [CWebDriverException] _ wp) as [[h | e] w1] eqn:Htries.
  - unfold BrowserFactory_create, bind at 1, try_except, bind at 1.
    rewrite Hargs, Htries.
    unfold bind, modify, call, ret; cbn.
    by destruct (responds env _ _) as [[] | e].
  - destruct e as [r| | | | | | | |];
      try (unfold BrowserFactory_create, bind at 1, try_except, bind at 1;
           rewrite Hargs, Htries; reflexivity).
    exact (BrowserFactory_create_classifies env _ _ _ _ _ _ Hargs Htries).
Qed.

(** A first [WebDriverException] is retried once: when the second call of
    the driver class returns a session, [create] goes on with it.  The
    driver class is called twice with the same options. *)
Theorem BrowserFactory_create_retries_once
    (self : Factory) (w wp : World) (kwargs : gmap string pyval)
    (e1 : exn) (h : Handle) :
  let cls := webdriver_class (base_of self) in
  processed_browser_args env self w = (Ret kwargs, wp) ->
  new_session env (trace wp) cls kwargs = Exc e1 ->
  isinstance e1 [CWebDriverException] = true ->
  new_session env (trace wp ++ [EConstruct cls kwargs]) cls kwargs = Ret h ->
  responds env
    (trace wp ++ [EConstruct cls kwargs; EConstruct cls kwargs;
                  ESetFileDetector h]) (EMaximizeWindow h) = Ret tt ->
  exists w',
    BrowserFactory_create env self w = (Ret h, w') /\
    trace w' =
      trace w ++ [EConstruct cls kwargs; EConstruct cls kwargs]
              ++ setup_events h.
Proof.
  intros cls Hargs H1 Hr H2 Hmax.
  rewrite (BrowserFactory_create_run _ _ _ _ Hargs), tries_two.
  unfold construct at 1. fold cls. rewrite H1, Hr.
  unfold construct. cbn [trace record_event]. fold cls. rewrite H2.
  cbn [trace record_event]. rewrite <- !app_assoc. cbn [app].
  rewrite Hmax. eexists. split; [reflexivity|].
  cbn. rewrite (processed_browser_args_trace _ _ _ _ Hargs).
  by rewrite <- !app_assoc.
Qed.

(** Two [WebDriverException]s in a row: the second one propagates as it was
    raised (any error of the second call does, unless it is a [URLError]),
    after exactly two calls of the driver class. *)
Theorem BrowserFactory_create_gives_up
    (self : Factory) (w wp : World) (kwargs : gmap string pyval)
    (e1 e2 : exn) :
  let cls := webdriver_class (base_of self) in
  processed_browser_args env self w = (Ret kwargs, wp) ->
  new_session env (trace wp) cls kwargs = Exc e1 ->
  isinstance e1 [CWebDriverException] = true ->
  new_session env (trace wp ++ [EConstruct cls kwargs]) cls kwargs = Exc e2 ->
  isinstance e2 [CURLError] = false ->
  exists w',
    BrowserFactory_create env self w = (Exc e2, w') /\
    trace w' = trace w ++ [EConstruct cls kwargs; EConstruct cls kwargs].
Proof.
  intros cls Hargs H1 Hr H2 Hnot.
  rewrite (BrowserFactory_create_run _ _ _ _ Hargs), tries_two.
  unfold construct at 1. fold cls. rewrite H1, Hr.
  unfold construct. cbn [trace record_event]. fold cls. rewrite H2.
  eexists. split.
  - destruct e2; try reflexivity. discriminate.
  - cbn. rewrite (processed_browser_args_trace _ _ _ _ Hargs).
    by rewrite <- !app_assoc.
Qed.

(** An error of the first call that is neither a [WebDriverException] nor a
    [URLError] propagates at once: the driver class is called once. *)
Theorem BrowserFactory_create_no_retry
    (self : Factory) (w wp : World) (kwargs : gmap string pyval) (e : exn) :
  let cls := webdriver_class (base_of self) in
  processed_browser_args env self w = (Ret kwargs, wp) ->
  new_session env (trace wp) cls kwargs = Exc e ->
  isinstance e [CWebDriverException] = false ->
  isinstance e [CURLError] = false ->
  exists w',
    BrowserFactory_create env self w = (Exc e, w') /\
    trace w' = trace w ++ [EConstruct cls kwargs].
Proof.
  intros cls Hargs H1 Hnr Hnot.
  rewrite (BrowserFactory_create_run _ _ _ _ Hargs), tries_two.
  unfold construct at 1. fold cls. rewrite H1, Hnr.
  eexists. split.
  - destruct e; try reflexivity. discriminate.
  - cbn. by rewrite (processed_browser_args_trace _ _ _ _ Hargs).
Qed.

(** When [maximize_window] raises on the session just built, [create]
    raises that error; the session is not quit and is not handed to the
    caller. *)
Theorem BrowserFactory_create_maximize_fails
    (self : Factory) (w wp : World) (kwargs : gmap string pyval)
    (h : Handle) (e : exn) :
  let cls := webdriver_class (base_of self) in
  processed_browser_args env self w = (Ret kwargs, wp) ->
  new_session env (trace wp) cls kwargs = Ret h ->
  responds env (trace wp ++ [EConstruct cls kwargs; ESetFileDetector h])
    (EMaximizeWindow h) = Exc e ->
  exists w',
    BrowserFactory_create env self w = (Exc e, w') /\
    trace w' = trace w ++ EConstruct cls kwargs :: setup_events h /\
    Forall (fun ev => quit_event ev = false)
      (EConstruct cls kwargs :: setup_events h).
Proof.
  intros cls Hargs H1 Hmax.
  rewrite (BrowserFactory_create_run _ _ _ _ Hargs), tries_two.
  unfold construct at 1. fold cls. rewrite H1.
  cbn [trace record_event]. rewrite <- !app_assoc. cbn [app].
  rewrite Hmax. eexists. split; [reflexivity|]. split.
  - cbn. rewrite (processed_browser_args_trace _ _ _ _ Hargs).
    by rewrite <- !app_assoc.
  - repeat constructor.
Qed.

(** In every run [create] calls the driver class at most twice, and makes
    no call that quits a session or touches the lease. *)
Theorem BrowserFactory_create_calls (self : Factory) (w w' : World)
    (r : outcome Handle) :
  BrowserFactory_create env self w = (r, w') ->
  exists evs,
    trace w' = trace w ++ evs /\
    length (List.filter construct_event evs) <= 2 /\
    Forall (fun ev => quit_event ev = false /\ lease_event ev = false) evs.
Proof.
  intros Hrun.
  destruct (processed_browser_args env self w) as [[kw | e] wp] eqn:Hargs.
  - pose proof (processed_browser_args_trace _ _ _ _ Hargs) as Htr.
    rewrite (BrowserFactory_create_run _ _ _ _ Hargs), tries_two in Hrun.
    unfold construct in Hrun. cbn [trace record_event] in Hrun.
    set (cls := webdriver_class (base_of self)) in *.
    destruct (new_session env (trace wp) cls kw) as [h | e1].
    + injection Hrun as <- <-.
      exists (EConstruct cls kw :: setup_events h). cbn.
      rewrite Htr, <- !app_assoc. split; [done|]. split; [lia|].
      repeat constructor.
    + destruct (isinstance e1 [CWebDriverException]).
      * destruct (new_session env (trace wp ++ [EConstruct cls kw]) cls kw)
          as [h | e2].
        -- injection Hrun as <- <-.
           exists ([EConstruct cls kw; EConstruct cls kw] ++ setup_events h).
           cbn. rewrite Htr, <- !app_assoc. split; [done|]. split; [lia|].
           repeat constructor.
        -- exists [EConstruct cls kw; EConstruct cls kw].
           assert (w' = record_event (EConstruct cls kw)
                          (record_event (EConstruct cls kw) wp)) as ->
             by (destruct e2; congruence).
           cbn. rewrite Htr, <- !app_assoc. split; [done|]. split; [lia|].
           repeat constructor.
      * exists [EConstruct cls kw].
        assert (w' = record_event (EConstruct cls kw) wp) as ->
          by (destruct e1; congruence).
        cbn. rewrite Htr. split; [done|]. split; [lia|]. repeat constructor.
  - exists []. rewrite app_nil_r. split; [|split; [cbn; lia | constructor]].
    unfold BrowserFactory_create, bind at 1, try_except, bind at 1 in Hrun.
    rewrite Hargs in Hrun.
    assert (w' = wp) as ->.
    { cbn [handle] in Hrun.
      destruct (isinstance e [CURLError]); [|by injection Hrun].
      unfold bind, reason_errno in Hrun.
      destruct e as [[z|d]| | | | | | | |]; cbn in Hrun;
        try case_decide; by injection Hrun. }
    exact (processed_browser_args_trace _ _ _ _ Hargs).
Qed.

End CreateProperties.

(** ** WharfFactory: the lease *)

Section LeaseProperties.

Variable env : Env.

Local Abbreviation inner_handlers self :=
  [([CURLError], fun ex : exn =>
      do! log_msg Error "URLError connecting to selenium; recycling container. URLError:" in
      do! log_msg Exception "URLError" in
      do! call env (ECheckin (wharf self)) in
      raise ex);
   ([CException], fun ex : exn =>
      do! log_msg Exception "failure on webdriver usage, returning container" in
      do! call env (ECheckin (wharf self)) in
      @raise World Handle ex)].

(** Both handlers check the lease in and raise. *)
Lemma inner_handlers_run self e w1 :
  exists w2,
    handle (inner_handlers self) e w1 =
      (Exc (match responds env (trace w1) (ECheckin (wharf self)) with
            | Ret _ => e
            | Exc e' => e'
            end), w2) /\
    trace w2 = trace w1 ++ [ECheckin (wharf self)].
Proof.
  cbn [handle]. destruct (isinstance e [CURLError]);
    [|rewrite isinstance_Exception];
    unfold bind, log_msg, modify, call, raise; cbn;
    destruct (responds env (trace w1) _) as [[] | e']; eauto.
Qed.

Lemma lease_calls_none evs :
  Forall (fun ev => lease_event ev = false) evs -> lease_calls evs = [].
Proof.
  unfold lease_calls. induction 1 as [|ev evs Hev _ IH]; [done|].
  cbn. by rewrite Hev.
Qed.

Lemma lease_calls_app evs1 evs2 :
  lease_calls (evs1 ++ evs2) = lease_calls evs1 ++ lease_calls evs2.
Proof. apply List.filter_app. Qed.

(** An attempt whose checkout raises. *)
Lemma inner_checkout_raises
    (self : WharfFactory) (args : list pyval) (w : World) (e : exn) :
  responds env (trace w) (ECheckout (wharf self)) = Exc e ->
  exists w2,
    WharfFactory_inner env self args w =
      (Exc (match responds env (trace w ++ [ECheckout (wharf self)])
                    (ECheckin (wharf self)) with
            | Ret _ => e
            | Exc e' => e'
            end), w2) /\
    trace w2 = trace w ++ [ECheckout (wharf self); ECheckin (wharf self)].
Proof.
  intros Hout.
  unfold WharfFactory_inner. rewrite try_except_call, Hout.
  destruct (inner_handlers_run self e
              (record_event (ECheckout (wharf self)) w)) as (w2 & Hrun & Htr).
  exists w2. split; [exact Hrun|].
  rewrite Htr. cbn. by rewrite <- app_assoc.
Qed.

(** When [checkout] itself raises, the base creation is not attempted and
    [checkin] is still called before the error leaves the attempt. *)
Theorem inner_checkout_fails
    (self : WharfFactory) (args : list pyval) (w : World) (e : exn) :
  responds env (trace w) (ECheckout (wharf self)) = Exc e ->
  exists w2,
    WharfFactory_inner env self args w =
      (Exc (match responds env (trace w ++ [ECheckout (wharf self)])
                    (ECheckin (wharf self)) with
            | Ret _ => e
            | Exc e' => e'
            end), w2) /\
    trace w2 = trace w ++ [ECheckout (wharf self); ECheckin (wharf self)].
Proof. exact (inner_checkout_raises self args w e). Qed.

(** The calls of one attempt on the lease: a checkout alone when the
    attempt returns a session (the lease stays held), a checkout and a
    checkin when it raises. *)
Lemma inner_lease_calls self args w r w' :
  WharfFactory_inner env self args w = (r, w') ->
  exists evs,
    trace w' = trace w ++ evs /\
    lease_calls evs =
      match r with
      | Ret _ => [ECheckout (wharf self)]
      | Exc _ => [ECheckout (wharf self); ECheckin (wharf self)]
      end.
Proof.
  unfold WharfFactory_inner. rewrite try_except_call.
  set (w0 := record_event (ECheckout (wharf self)) w).
  destruct (responds env (trace w) _) as [[] | e0].
  - unfold try_except.
    destruct (call_BrowserFactory_create env (Container self) args w0)
      as [[h | e] w1] eqn:Hc;
      destruct (emits_call_BrowserFactory_create env _ _ _ _ _ Hc)
        as (evs & Hevs & Hfree).
    + intros [= <- <-]. exists (ECheckout (wharf self) :: evs). split.
      * rewrite Hevs. subst w0. cbn. by rewrite <- app_assoc.
      * cbn. fold (lease_calls evs). by rewrite (lease_calls_none _ Hfree).
    + destruct (inner_handlers_run self e w1) as (w2 & -> & Htr).
      intros [= <- <-].
      exists (ECheckout (wharf self) :: evs ++ [ECheckin (wharf self)]).
      split.
      * rewrite Htr, Hevs. subst w0. cbn. by rewrite <- !app_assoc.
      * cbn. fold (lease_calls (evs ++ [ECheckin (wharf self)])).
        by rewrite lease_calls_app, (lease_calls_none _ Hfree).
  - destruct (inner_handlers_run self e0 w0) as (w2 & -> & Htr).
    intros [= <- <-].
    exists [ECheckout (wharf self); ECheckin (wharf self)]. split; [|done].
    rewrite Htr. subst w0. cbn. by rewrite <- app_assoc.
Qed.

(** The lease protocol of the container-backed [create], for any arguments
    handed to the base method: at most two checkouts; every checkout of an
    attempt that raises is followed by its checkin; when [create] returns a
    session the last call on the lease is a checkout, so the lease is held;
    when it raises, every checkout has been checked in. *)
Theorem WharfFactory_create_lease_protocol
    (self : WharfFactory) (args : list pyval) (w w' : World)
    (r : outcome Handle) :
  WharfFactory_attempts env self args w = (r, w') ->
  let out := ECheckout (wharf self) in
  let back := ECheckin (wharf self) in
  exists evs,
    trace w' = trace w ++ evs /\
    match r with
    | Ret _ => lease_calls evs = [out] \/ lease_calls evs = [out; back; out]
    | Exc _ =>
        lease_calls evs = [out; back] \/
        lease_calls evs = [out; back; out; back]
    end.
Proof.
  intros Hrun out back.
  unfold WharfFactory_attempts, WHARF_OUTER_RETRIES in Hrun.
  rewrite tries_two in Hrun.
  destruct (WharfFactory_inner env self args w) as [[h | e] w1] eqn:H1;
    destruct (inner_lease_calls _ _ _ _ _ H1) as (evs1 & Htr1 & Hl1).
  - injection Hrun as <- <-. exists evs1. eauto.
  - destruct (isinstance e BROWSER_ERRORS).
    + destruct (inner_lease_calls _ _ _ _ _ Hrun) as (evs2 & Htr2 & Hl2).
      exists (evs1 ++ evs2). rewrite Htr2, Htr1, <- app_assoc.
      split; [done|]. rewrite lease_calls_app, Hl1.
      destruct r; rewrite Hl2; cbn; eauto.
    + injection Hrun as <- <-. exists evs1. eauto.
Qed.

(** [WharfFactory.create(url_key)] as written never returns a session: the
    base method does not take [url_key], so each attempt raises after its
    checkout, and the only calls made are on the lease (the driver class is
    never called). *)
Theorem WharfFactory_create_never_returns
    (self : WharfFactory) (url_key : pyval) (w : World) :
  exists e w' evs,
    WharfFactory_create env self url_key w = (Exc e, w') /\
    trace w' = trace w ++ evs /\
    Forall (fun ev => lease_event ev = true) evs.
Proof.
  assert (Hinner : forall w0, exists e w1,
    WharfFactory_inner env self [url_key] w0 = (Exc e, w1) /\
    trace w1 = trace w0 ++ [ECheckout (wharf self); ECheckin (wharf self)]).
  { intros w0.
    destruct (responds env (trace w0) (ECheckout (wharf self)))
      as [[] | e0] eqn:Hout.
    - destruct (inner_after_failure env self [url_key] w0 _ _ Hout eq_refl)
        as (w2 & Hrun & Htr).
      rewrite Hrun.
      destruct (responds env (trace (record_event _ w0)) _); do 2 eexists;
        (split; [reflexivity|]); rewrite Htr; cbn; by rewrite <- app_assoc.
    - destruct (inner_checkout_raises self [url_key] w0 e0 Hout)
        as (w2 & Hrun & Htr).
      eauto. }
  unfold WharfFactory_create, WharfFactory_attempts, WHARF_OUTER_RETRIES.
  rewrite tries_two.
  destruct (Hinner w) as (e1 & w1 & -> & Htr1).
  destruct (isinstance e1 BROWSER_ERRORS).
  - destruct (Hinner w1) as (e2 & w2 & -> & Htr2).
    exists e2, w2, [ECheckout (wharf self); ECheckin (wharf self);
                   ECheckout (wharf self); ECheckin (wharf self)].
    split; [done|]. split; [|repeat constructor].
    rewrite Htr2, Htr1, <- app_assoc. reflexivity.
  - exists e1, w1, [ECheckout (wharf self); ECheckin (wharf self)].
    split; [done|]. split; [done | repeat constructor].
Qed.


End LeaseProperties.


(** The run of the witness to its end: two checkouts, each checked in; the
    second attempt fails with the [TypeError] of the base method. *)
Example create_after_refused_checkout :
  trace (snd (WharfFactory_create refused_checkout_env wharf_factory
                (PStr "url_key") empty_world)) =
    [ECheckout 0; ECheckin 0; ECheckout 0; ECheckin 0] /\
  fst (WharfFactory_create refused_checkout_env wharf_factory
         (PStr "url_key") empty_world) =
    Exc (TypeError "create() takes 1 positional argument but more were given").
Proof. split; vm_compute; reflexivity. Qed.

(** ** BrowserManager: quit, start and ensure_open together *)

Section LifecycleProperties.

Variable env : Env.

Local Abbreviation closing_part :=
  (try_finally
     (try_except
        (let! f := getattr_factory in
         let! self := get_self in
         liftW (Factory_close env f (browser self)))
        [([CException], fun e =>
            do! liftW (log_msg Error "An exception happened during browser shutdown:") in
            liftW (log_msg Exception "shutdown"))])
     (set_browser None)).

Lemma Factory_close_cleanup f b w :
  cleanup (snd (Factory_close env f b w)) = cleanup w.
Proof.
  destruct f as [f | f], b as [h|]; cbn;
    unfold WharfFactory_close, try_finally, BrowserFactory_close, call, ret;
    cbn; try reflexivity.
  - by destruct (responds env (trace w ++ [EQuit h]) _) as [[] | e].
  - by destruct (responds env (trace w) _) as [[] | e].
Qed.

Lemma closing_part_run self w :
  exists w',
    closing_part (self, w) = (Ret tt, (closed self, w')) /\
    trace w' = trace w ++ closing_events self /\
    cleanup w' = cleanup w.
Proof.
  unfold try_finally, try_except, bind at 1, getattr_factory, bind at 1,
    get_self, closing_events.
  cbn [fst snd].
  destruct (factory self) as [f|] eqn:Hf.
  - unfold ret at 1, bind at 1, liftW at 1. cbn [fst snd].
    pose proof (Factory_close_trace env f (browser self) w) as Htr.
    pose proof (Factory_close_cleanup f (browser self) w) as Hcl.
    destruct (Factory_close env f (browser self) w) as [[[] | e] w1];
      cbn [snd] in Htr, Hcl.
    + eexists; split; [|split; [exact Htr | exact Hcl]].
      cbn. unfold closed. by rewrite Hf.
    + cbn [handle]. rewrite isinstance_Exception.
      eexists; split; [cbn; unfold closed; rewrite Hf; reflexivity|].
      split; [exact Htr | exact Hcl].
  - unfold raise at 1. cbn [handle]. rewrite isinstance_Exception.
    eexists; split; [cbn; unfold closed; rewrite Hf; reflexivity|].
    cbn. by rewrite app_nil_r.
Qed.

Lemma pop_and_call_run h stack : forall w,
  callbacks_return env (trace w) stack = true ->
  exists w1,
    pop_and_call env h stack w = (Ret tt, w1) /\
    trace w1 = trace w ++ map ECallback stack /\
    cleanup w1 = match stack with
                 | [] => cleanup w
                 | _ :: _ => <[h := []]> (cleanup w)
                 end.
Proof.
  induction stack as [|cb below IH]; intros w Hret.
  - exists w. cbn. by rewrite app_nil_r.
  - cbn in Hret.
    destruct (responds env (trace w) (ECallback cb)) as [[] | e] eqn:Hcb;
      [|discriminate].
    cbn [pop_and_call]. unfold bind at 1, modify at 1.
    unfold bind at 1, call at 1. cbn [trace set_cleanup]. rewrite Hcb.
    destruct (IH (record_event (ECallback cb)
                    (set_cleanup h (rev below) w)) Hret)
      as (w1 & Hrun & Htr & Hcl).
    exists w1. split; [exact Hrun|]. split.
    + rewrite Htr. cbn. by rewrite <- app_assoc.
    + rewrite Hcl. cbn. destruct below; [reflexivity|].
      by rewrite insert_insert_eq.
Qed.

Lemma pop_and_call_stops h cb below e above : forall w,
  callbacks_return env (trace w) above = true ->
  responds env (trace w ++ map ECallback above) (ECallback cb) = Exc e ->
  exists w1,
    pop_and_call env h (above ++ cb :: below) w = (Exc e, w1) /\
    trace w1 = trace w ++ map ECallback (above ++ [cb]) /\
    cleanup w1 = <[h := rev below]> (cleanup w).
Proof.
  induction above as [|a above IH]; intros w Hret Hcb.
  - cbn in Hcb. rewrite app_nil_r in Hcb.
    rewrite app_nil_l, (pop_and_call_raises env h cb below w e Hcb).
    eexists. split; [reflexivity|]. split; reflexivity.
  - cbn in Hret.
    destruct (responds env (trace w) (ECallback a)) as [[] | e'] eqn:Ha;
      [|discriminate].
    cbn [app pop_and_call]. unfold bind at 1, modify at 1.
    unfold bind at 1, call at 1. cbn [trace set_cleanup]. rewrite Ha.
    destruct (IH (record_event (ECallback a)
                    (set_cleanup h (rev (above ++ cb :: below)) w)))
      as (w1 & Hrun & Htr & Hcl).
    + exact Hret.
    + cbn. rewrite <- app_assoc. exact Hcb.
    + exists w1. split; [exact Hrun|]. split.
      * rewrite Htr. cbn. by rewrite <- app_assoc.
      * rewrite Hcl. cbn. by rewrite insert_insert_eq.
Qed.

(** The cleanups part of [quit] on the session owned. *)
Lemma _consume_cleanups_owned self w h :
  browser self = Some h ->
  _consume_cleanups env (self, w) =
  match cleanup w !! h with
  | Some cl =>
      (fst (pop_and_call env h (rev cl) w),
       (self, snd (pop_and_call env h (rev cl) w)))
  | None => (Ret tt, (self, w))
  end.
Proof.
  intros Hb.
  unfold _consume_cleanups, bind at 1, try_except, bind at 1,
    getattr_cleanup, bind at 1, get_self.
  cbn [fst snd]. rewrite Hb.
  unfold bind at 1, liftW at 1, get. cbn [fst snd].
  destruct (cleanup w !! h) as [cl|]; [|reflexivity].
  unfold ret at 1 2, liftW. cbn [fst snd].
  by destruct (pop_and_call env h (rev cl) w).
Qed.

(** The run of [quit] on an owned session whose callbacks return. *)
Lemma quit_run_owned
    (self : BrowserManager) (w : World) (h : Handle) :
  browser self = Some h ->
  callbacks_return env (trace w) (rev (attached w h)) = true ->
  exists w',
    quit env (self, w) = (Ret tt, (closed self, w')) /\
    trace w' =
      trace w ++ map ECallback (rev (attached w h)) ++ closing_events self /\
    attached w' h = [].
Proof.
  intros Hb Hret.
  rewrite quit_unfold, (_consume_cleanups_owned _ _ _ Hb).
  unfold attached in *.
  destruct (cleanup w !! h) as [cl|] eqn:Hcl; cbn [default] in *.
  - destruct (pop_and_call_run h (rev cl) w Hret) as (w1 & Hrun & Htr & Hc).
    rewrite Hrun. cbn [fst snd].
    destruct (closing_part_run self w1) as (w' & -> & Htr' & Hc').
    exists w'. split; [reflexivity|]. split.
    + rewrite Htr', Htr. by rewrite <- app_assoc.
    + rewrite Hc', Hc. destruct (rev cl) eqn:Hrev.
      * rewrite Hcl. apply (f_equal (@rev _)) in Hrev.
        rewrite rev_involutive in Hrev. by subst.
      * by rewrite lookup_insert_eq.
  - destruct (closing_part_run self w) as (w' & -> & Htr' & Hc').
    exists w'. split; [reflexivity|]. split; [exact Htr'|].
    by rewrite Hc', Hcl.
Qed.

(** When the attached callbacks return, [quit] returns with the manager
    Closed; its calls are the callbacks, last attached first, then those of
    the factory's [close]; and the callbacks are gone from the session, so
    that nothing would run them again. *)
Theorem quit_discards_cleanups
    (self : BrowserManager) (w : World) (h : Handle) :
  browser self = Some h ->
  callbacks_return env (trace w) (rev (attached w h)) = true ->
  exists w',
    quit env (self, w) = (Ret tt, (closed self, w')) /\
    trace w' =
      trace w ++ map ECallback (rev (attached w h)) ++ closing_events self /\
    attached w' h = [].
Proof. exact (quit_run_owned self w h). Qed.

(** The run of [quit] up to a callback that raises. *)
Lemma quit_raise_owned
    (self : BrowserManager) (w : World) (h : Handle)
    (earlier later : list Callback) (cb : Callback) (e : exn) :
  browser self = Some h ->
  cleanup w !! h = Some (earlier ++ cb :: later) ->
  callbacks_return env (trace w) (rev later) = true ->
  responds env (trace w ++ map ECallback (rev later)) (ECallback cb) = Exc e ->
  exists w',
    quit env (self, w) = (Exc e, (self, w')) /\
    trace w' = trace w ++ map ECallback (rev later ++ [cb]) /\
    attached w' h = earlier.
Proof.
  intros Hb Hcl Hret Hcb.
  rewrite quit_unfold, (_consume_cleanups_owned _ _ _ Hb), Hcl.
  replace (rev (earlier ++ cb :: later)) with (rev later ++ cb :: rev earlier)
    by (rewrite rev_app_distr; cbn; by rewrite <- app_assoc).
  destruct (pop_and_call_stops h cb (rev earlier) e (rev later) w Hret Hcb)
    as (w1 & -> & Htr & Hc).
  exists w1. split; [reflexivity|]. split; [exact Htr|].
  unfold attached. by rewrite Hc, lookup_insert_eq, rev_involutive.
Qed.

(** When a callback raises, [quit] raises its exception at once.  The
    callbacks attached after it have been called and discarded, and so has
    the one that raised; those attached before it are still attached; the
    factory's [close] is not called and the manager still owns the
    session. *)
Theorem quit_stops_at_raising_callback
    (self : BrowserManager) (w : World) (h : Handle)
    (earlier later : list Callback) (cb : Callback) (e : exn) :
  browser self = Some h ->
  cleanup w !! h = Some (earlier ++ cb :: later) ->
  callbacks_return env (trace w) (rev later) = true ->
  responds env (trace w ++ map ECallback (rev later)) (ECallback cb) = Exc e ->
  exists w',
    quit env (self, w) = (Exc e, (self, w')) /\
    trace w' = trace w ++ map ECallback (rev later ++ [cb]) /\
    attached w' h = earlier.
Proof. exact (quit_raise_owned self w h earlier later cb e). Qed.

(** [quit] on a Closed manager returns and leaves it Closed; no callback
    and no session is touched.  With a container-backed factory bound, the
    lease is checked in all the same. *)
Theorem quit_when_closed (self : BrowserManager) (w : World) :
  browser self = None ->
  exists w',
    quit env (self, w) = (Ret tt, (self, w')) /\
    trace w' =
      trace w ++ match factory self with
                 | Some (Container wf) => [ECheckin (wharf wf)]
                 | _ => []
                 end.
Proof.
  intros Hb.
  assert (Hc : _consume_cleanups env (self, w) = (Ret tt, (self, w))).
  { unfold _consume_cleanups, bind at 1, try_except, bind at 1,
      getattr_cleanup, bind at 1, get_self.
    cbn [fst snd]. by rewrite Hb. }
  rewrite quit_unfold, Hc.
  destruct (closing_part_run self w) as (w' & -> & Htr & _).
  assert (closed self = self) as ->
    by (destruct self; cbn in *; by subst).
  exists w'. split; [reflexivity|]. rewrite Htr.
  unfold closing_events, close_events. rewrite Hb.
  by destruct (factory self) as [[f | f]|].
Qed.



(** The run of [start] on an owned session whose callbacks return. *)
Lemma start_run_open (self : BrowserManager) (w : World) (h : Handle) :
  browser self = Some h ->
  callbacks_return env (trace w) (rev (attached w h)) = true ->
  exists wq,
    start env (self, w) = open_fresh env (closed self, wq) /\
    trace wq =
      trace w ++ map ECallback (rev (attached w h)) ++ closing_events self.
Proof.
  intros Hb Hret.
  destruct (quit_run_owned self w h Hb Hret) as (wq & Hrun & Htr & _).
  exists wq. split; [|exact Htr].
  unfold start, bind at 1, get_self. unfold bind at 1. cbn [fst].
  rewrite Hb, Hrun. reflexivity.
Qed.

(** [start] on an Open manager quits first: when the attached callbacks
    return, the old session is given up (whatever the factory's [close]
    does) and [open_fresh] then runs on the Closed manager. *)
Theorem start_when_open (self : BrowserManager) (w : World) (h : Handle) :
  browser self = Some h ->
  callbacks_return env (trace w) (rev (attached w h)) = true ->
  exists wq,
    start env (self, w) = open_fresh env (closed self, wq) /\
    trace wq =
      trace w ++ map ECallback (rev (attached w h)) ++ closing_events self.
Proof. exact (start_run_open self w h). Qed.

(** When a callback raises during the [quit] of [start], [start] raises the
    same exception and no session is created: the manager still owns the
    old one. *)
Theorem start_stops_at_raising_callback
    (self : BrowserManager) (w : World) (h : Handle)
    (earlier later : list Callback) (cb : Callback) (e : exn) :
  browser self = Some h ->
  cleanup w !! h = Some (earlier ++ cb :: later) ->
  callbacks_return env (trace w) (rev later) = true ->
  responds env (trace w ++ map ECallback (rev later)) (ECallback cb) = Exc e ->
  exists w',
    start env (self, w) = (Exc e, (self, w')) /\
    trace w' = trace w ++ map ECallback (rev later ++ [cb]).
Proof.
  intros Hb Hcl Hret Hcb.
  destruct (quit_raise_owned self w h earlier later cb e
              Hb Hcl Hret Hcb) as (w' & Hrun & Htr & _).
  exists w'. split; [|exact Htr].
  unfold start, bind at 1, get_self. unfold bind at 1. cbn [fst].
  rewrite Hb, Hrun. reflexivity.
Qed.

(** [ensure_open] on a session whose probe read returns: the owned handle
    is returned, the manager is unchanged and the read is the only call. *)
Theorem ensure_open_alive (self : BrowserManager) (w : World) (h : Handle) :
  browser self = Some h ->
  responds env (trace w) (ECurrentUrl h) = Ret tt ->
  ensure_open env (self, w) =
    (Ret (Some h),
     (self, record_event (ECurrentUrl h) (record_log Debug "alive check" w))).
Proof.
  intros Hb Hok.
  unfold ensure_open, bind at 1.
  rewrite (_is_alive_run env _ _ _ Hb), Hok.
  unfold bind, get_self, ret; cbn. by rewrite Hb.
Qed.

(** The run of [ensure_open] after a probe that fails. *)
Lemma ensure_open_dead_run
    (self : BrowserManager) (w : World) (h : Handle) (e : exn) :
  browser self = Some h ->
  responds env (trace w) (ECurrentUrl h) = Exc e ->
  isinstance e [CUnexpectedAlertPresentException] = false ->
  callbacks_return env (trace w ++ [ECurrentUrl h]) (rev (attached w h))
    = true ->
  exists wq,
    ensure_open env (self, w) = open_fresh env (closed self, wq) /\
    trace wq =
      trace w ++ [ECurrentUrl h] ++ map ECallback (rev (attached w h))
              ++ closing_events self.
Proof.
  intros Hb Hdead Hnot Hret.
  set (wp := record_log Exception "browser in unknown state, considering dead"
               (record_event (ECurrentUrl h)
                  (record_log Debug "alive check" w))).
  assert (Hprobe : _is_alive env (self, w) = (Ret false, (self, wp))).
  { rewrite (_is_alive_run env _ _ _ Hb), Hdead.
    destruct e; try reflexivity. discriminate. }
  destruct (start_run_open self wp h Hb Hret) as (wq & Hstart & Htr).
  exists wq. split.
  - unfold ensure_open, bind at 1. rewrite Hprobe. exact Hstart.
  - rewrite Htr. subst wp. cbn. by rewrite <- app_assoc.
Qed.

(** [ensure_open] on a session whose probe read raises anything but
    [UnexpectedAlertPresentException]: the session is taken for dead and
    [ensure_open] goes on as [start] does, from the world that the probe has
    left.  When the attached callbacks return, the manager quits the session
    (callbacks first, then the factory's [close]) and [open_fresh] runs on
    the Closed manager. *)
Theorem ensure_open_dead
    (self : BrowserManager) (w : World) (h : Handle) (e : exn) :
  browser self = Some h ->
  responds env (trace w) (ECurrentUrl h) = Exc e ->
  isinstance e [CUnexpectedAlertPresentException] = false ->
  ensure_open env (self, w) =
    start env
      (self,
       record_log Exception "browser in unknown state, considering dead"
         (record_event (ECurrentUrl h) (record_log Debug "alive check" w))) /\
  (callbacks_return env (trace w ++ [ECurrentUrl h]) (rev (attached w h))
     = true ->
   exists wq,
     ensure_open env (self, w) = open_fresh env (closed self, wq) /\
     trace wq =
       trace w ++ [ECurrentUrl h] ++ map ECallback (rev (attached w h))
               ++ closing_events self).
Proof.
  intros Hb Hdead Hnot. split.
  - unfold ensure_open, bind at 1.
    rewrite (_is_alive_run env _ _ _ Hb), Hdead.
    destruct e; try reflexivity. discriminate.
  - exact (ensure_open_dead_run self w h e Hb Hdead Hnot).
Qed.

End LifecycleProperties.

Section RecoveryProperties.

Variable env : Env.

(** Recovery of a dead session, with a direct factory bound as
    [self.factory]: the probe read raises (not an alert), the callbacks
    return, the old session is quit (whether or not its [quit] raises), the
    driver class gives a new session, and [ensure_open] returns the new
    handle, which the manager now owns. *)
Theorem ensure_open_recovers
    (self : BrowserManager) (w : World) (h h' : Handle) (e : exn)
    (f : BrowserFactory) :
  let cls := webdriver_class f in
  let kwargs := processed_kwargs f in
  let before :=
    trace w ++ [ECurrentUrl h] ++ map ECallback (rev (attached w h))
            ++ [EQuit h] in
  browser self = Some h ->
  factory self = Some (Direct f) ->
  responds env (trace w) (ECurrentUrl h) = Exc e ->
  isinstance e [CUnexpectedAlertPresentException] = false ->
  callbacks_return env (trace w ++ [ECurrentUrl h]) (rev (attached w h))
    = true ->
  new_session env before cls kwargs = Ret h' ->
  responds env (before ++ [EConstruct cls kwargs; ESetFileDetector h'])
    (EMaximizeWindow h') = Ret tt ->
  exists w',
    ensure_open env (self, w) =
      (Ret (Some h'),
       ({| browser_factory := browser_factory self;
           browser := Some h';
           factory := factory self |}, w')) /\
    trace w' = before ++ EConstruct cls kwargs :: setup_events h'.
Proof.
  intros cls kwargs before Hb Hf Hdead Hnot Hret Hnew Hmax.
  destruct (ensure_open_dead_run env self w h e Hb Hdead Hnot Hret)
    as (wq & -> & Htr).
  assert (Hq : trace wq = before).
  { rewrite Htr. unfold before, closing_events, close_events.
    rewrite Hf, Hb. reflexivity. }
  set (wl := record_log Info "starting browser" wq).
  destruct (BrowserFactory_processed_browser_args_run f wl)
    as (wp & Hargs & Hp).
  assert (Hwp : trace wp = before) by (by rewrite Hp).
  assert (Hcreate : exists w',
    BrowserFactory_create env (Direct f) wl = (Ret h', w') /\
    trace w' = before ++ EConstruct cls kwargs :: setup_events h').
  { rewrite (BrowserFactory_create_run env (Direct f) wl _ wp Hargs).
    rewrite tries_two. unfold construct. cbn [base_of]. fold cls kwargs.
    rewrite Hwp, Hnew. cbn [trace record_event].
    rewrite Hwp, <- !app_assoc. cbn [app]. rewrite Hmax.
    eexists. split; [reflexivity|]. cbn. rewrite Hwp.
    by rewrite <- !app_assoc. }
  destruct Hcreate as (w' & Hcreate & Htr').
  exists w'. split; [|exact Htr'].
  exact (open_fresh_bound_direct env (closed self) wq f h' w'
           eq_refl Hf Hcreate).
Qed.

End RecoveryProperties.

(** ** Runs of the further properties *)

Lemma WharfFactory_processed_browser_args_spec_witness :
  exists base_kwargs w',
    BrowserFactory_processed_browser_args (wharf_base wharf_factory)
      (record_log Info "tests can be viewed via vnc on display {}"
         (record_log Info "webdriver command executor set to %s" empty_world)) =
      (Ret base_kwargs, w') /\
    WharfFactory_processed_browser_args quiet_env wharf_factory empty_world =
      (Ret (<["command_executor" := hub_url]> base_kwargs), w') /\
    trace w' = trace empty_world /\
    (<["command_executor" := hub_url]> base_kwargs) !! "command_executor" =
      Some hub_url /\
    (forall key, key <> "command_executor" ->
       (<["command_executor" := hub_url]> base_kwargs) !! key =
       base_kwargs !! key).
Proof.
  exact (WharfFactory_processed_browser_args_spec quiet_env wharf_factory
           empty_world hub_url hub_url eq_refl eq_refl).
Defined.

Lemma BrowserFactory_create_retries_once_witness :
  exists w',
    BrowserFactory_create flaky_driver_env (Direct firefox_factory)
      empty_world = (Ret 1, w') /\
    trace w' =
      trace empty_world ++ [EConstruct Firefox ∅; EConstruct Firefox ∅]
        ++ setup_events 1.
Proof.
  exact (BrowserFactory_create_retries_once flaky_driver_env
           (Direct firefox_factory) empty_world empty_world ∅
           (WebDriverException "session not created") 1
           eq_refl eq_refl eq_refl eq_refl eq_refl).
Defined.

Lemma BrowserFactory_create_gives_up_witness :
  exists w',
    BrowserFactory_create down_env (Direct firefox_factory) empty_world =
      (Exc (WebDriverException "session not created"), w') /\
    trace w' =
      trace empty_world ++ [EConstruct Firefox ∅; EConstruct Firefox ∅].
Proof.
  exact (BrowserFactory_create_gives_up down_env (Direct firefox_factory)
           empty_world empty_world ∅
           (WebDriverException "session not created")
           (WebDriverException "session not created")
           eq_refl eq_refl eq_refl eq_refl eq_refl).
Defined.

Lemma BrowserFactory_create_no_retry_witness :
  exists w',
    BrowserFactory_create value_error_env (Direct firefox_factory)
      empty_world = (Exc (OtherError "ValueError" "bad option"), w') /\
    trace w' = trace empty_world ++ [EConstruct Firefox ∅].
Proof.
  exact (BrowserFactory_create_no_retry value_error_env
           (Direct firefox_factory) empty_world empty_world ∅
           (OtherError "ValueError" "bad option")
           eq_refl eq_refl eq_refl eq_refl).
Defined.

Lemma BrowserFactory_create_maximize_fails_witness :
  exists w',
    BrowserFactory_create maximize_fails_env (Direct firefox_factory)
      empty_world = (Exc (WebDriverException "no such window"), w') /\
    trace w' = trace empty_world ++ EConstruct Firefox ∅ :: setup_events 1 /\
    Forall (fun ev => quit_event ev = false)
      (EConstruct Firefox ∅ :: setup_events 1).
Proof.
  exact (BrowserFactory_create_maximize_fails maximize_fails_env
           (Direct firefox_factory) empty_world empty_world ∅ 1
           (WebDriverException "no such window") eq_refl eq_refl eq_refl).
Defined.

Lemma BrowserFactory_create_calls_witness :
  exists evs,
    trace (snd (BrowserFactory_create down_env (Direct firefox_factory)
                  empty_world)) = trace empty_world ++ evs /\
    length (List.filter construct_event evs) <= 2 /\
    Forall (fun ev => quit_event ev = false /\ lease_event ev = false) evs.
Proof.
  exact (BrowserFactory_create_calls down_env (Direct firefox_factory)
           empty_world _ _ eq_refl).
Defined.

Lemma BrowserFactory_create_OSError_witness :
  BrowserFactory_create no_route_env (Direct firefox_factory) empty_world =
    (if decide (Some 113%Z = Some 111%Z) then Exc backend_unreachable
     else Exc (URLError (ReasonOSError (Some 113%Z))),
     record_event (EConstruct Firefox ∅) empty_world).
Proof.
  exact (BrowserFactory_create_OSError no_route_env (Direct firefox_factory)
           empty_world ∅ empty_world (Some 113%Z)
           (record_event (EConstruct Firefox ∅) empty_world)
           eq_refl eq_refl).
Defined.

Lemma inner_checkout_fails_witness :
  exists w2,
    WharfFactory_inner flaky_wharf_env wharf_factory [] empty_world =
      (Exc (URLError (ReasonOSError (Some 113%Z))), w2) /\
    trace w2 = trace empty_world ++ [ECheckout 0; ECheckin 0].
Proof.
  exact (inner_checkout_fails flaky_wharf_env wharf_factory [] empty_world
           (URLError (ReasonOSError (Some 113%Z))) eq_refl).
Defined.

Lemma WharfFactory_create_lease_protocol_witness :
  exists evs,
    trace (snd (WharfFactory_attempts flaky_wharf_env wharf_factory []
                  empty_world)) = trace empty_world ++ evs /\
    (lease_calls evs = [ECheckout 0] \/
     lease_calls evs = [ECheckout 0; ECheckin 0; ECheckout 0]).
Proof.
  exact (WharfFactory_create_lease_protocol flaky_wharf_env wharf_factory []
           empty_world _ (Ret 1) eq_refl).
Defined.

Lemma quit_discards_cleanups_witness :
  exists w',
    quit failing_quit_env (open_manager, three_cleanups_world) =
      (Ret tt, (closed open_manager, w')) /\
    trace w' =
      trace three_cleanups_world
        ++ map ECallback (rev (attached three_cleanups_world 1))
        ++ closing_events open_manager /\
    attached w' 1 = [].
Proof.
  exact (quit_discards_cleanups failing_quit_env open_manager
           three_cleanups_world 1 eq_refl eq_refl).
Defined.

Lemma quit_stops_at_raising_callback_witness :
  exists w',
    quit raising_callback_env (open_manager, three_cleanups_world) =
      (Exc (OtherError "ValueError" "cleanup failed"), (open_manager, w')) /\
    trace w' = trace three_cleanups_world ++ map ECallback (rev [3] ++ [2]) /\
    attached w' 1 = [1].
Proof.
  exact (quit_stops_at_raising_callback raising_callback_env open_manager
           three_cleanups_world 1 [1] [3] 2
           (OtherError "ValueError" "cleanup failed")
           eq_refl eq_refl eq_refl eq_refl).
Defined.

Lemma quit_when_closed_witness :
  exists w',
    quit quiet_env (closed_wharf_manager, empty_world) =
      (Ret tt, (closed_wharf_manager, w')) /\
    trace w' = trace empty_world ++ [ECheckin 0].
Proof.
  exact (quit_when_closed quiet_env closed_wharf_manager empty_world eq_refl).
Defined.


Lemma start_when_open_witness :
  exists wq,
    start failing_quit_env (open_manager, three_cleanups_world) =
      open_fresh failing_quit_env (closed open_manager, wq) /\
    trace wq =
      trace three_cleanups_world
        ++ map ECallback (rev (attached three_cleanups_world 1))
        ++ closing_events open_manager.
Proof.
  exact (start_when_open failing_quit_env open_manager three_cleanups_world 1
           eq_refl eq_refl).
Defined.

Lemma start_stops_at_raising_callback_witness :
  exists w',
    start raising_callback_env (open_manager, three_cleanups_world) =
      (Exc (OtherError "ValueError" "cleanup failed"), (open_manager, w')) /\
    trace w' = trace three_cleanups_world ++ map ECallback (rev [3] ++ [2]).
Proof.
  exact (start_stops_at_raising_callback raising_callback_env open_manager
           three_cleanups_world 1 [1] [3] 2
           (OtherError "ValueError" "cleanup failed")
           eq_refl eq_refl eq_refl eq_refl).
Defined.

Lemma ensure_open_alive_witness :
  ensure_open quiet_env (open_manager, empty_world) =
    (Ret (Some 1),
     (open_manager,
      record_event (ECurrentUrl 1)
        (record_log Debug "alive check" empty_world))).
Proof.
  exact (ensure_open_alive quiet_env open_manager empty_world 1
           eq_refl eq_refl).
Defined.

Lemma ensure_open_dead_witness :
  ensure_open dead_session_env (open_manager, three_cleanups_world) =
    start dead_session_env
      (open_manager,
       record_log Exception "browser in unknown state, considering dead"
         (record_event (ECurrentUrl 1)
            (record_log Debug "alive check" three_cleanups_world))) /\
  (exists wq,
     ensure_open dead_session_env (open_manager, three_cleanups_world) =
       open_fresh dead_session_env (closed open_manager, wq) /\
     trace wq =
       trace three_cleanups_world ++ [ECurrentUrl 1]
         ++ map ECallback (rev (attached three_cleanups_world 1))
         ++ closing_events open_manager).
Proof.
  exact (conj
    (proj1 (ensure_open_dead dead_session_env open_manager
              three_cleanups_world 1 (WebDriverException "chrome not reachable")
              eq_refl eq_refl eq_refl))
    (proj2 (ensure_open_dead dead_session_env open_manager
              three_cleanups_world 1 (WebDriverException "chrome not reachable")
              eq_refl eq_refl eq_refl)
       eq_refl)).
Defined.

Lemma ensure_open_recovers_witness :
  exists w',
    ensure_open dead_session_env (open_manager, three_cleanups_world) =
      (Ret (Some 2),
       ({| browser_factory := browser_factory open_manager;
           browser := Some 2;
           factory := factory open_manager |}, w')) /\
    trace w' =
      (trace three_cleanups_world ++ [ECurrentUrl 1]
         ++ map ECallback (rev (attached three_cleanups_world 1))
         ++ [EQuit 1])
      ++ EConstruct Firefox (processed_kwargs firefox_factory)
           :: setup_events 2.
Proof.
  exact (ensure_open_recovers dead_session_env open_manager
           three_cleanups_world 1 2 (WebDriverException "chrome not reachable")
           firefox_factory eq_refl eq_refl eq_refl eq_refl eq_refl eq_refl
           eq_refl).
Defined.

(** * Properties of the configuration *)

(** ** Dictionaries *)

Lemma dict_get_set_eq d key v : dict_get (dict_set d key v) key = Some v.
Proof.
  induction d as [|[k v0] rest IH]; cbn.
  - by rewrite decide_True.
  - destruct (decide (k = key)); cbn.
    + by rewrite decide_True.
    + by rewrite decide_False.
Qed.

Lemma dict_get_set_ne d key key' v :
  key <> key' -> dict_get (dict_set d key v) key' = dict_get d key'.
Proof.
  intros Hne. induction d as [|[k v0] rest IH]; cbn.
  - by rewrite decide_False.
  - destruct (decide (k = key)) as [->|Hk]; cbn.
    + by rewrite !decide_False.
    + destruct (decide (k = key')); [done | exact IH].
Qed.

Lemma dict_set_set d key v v' :
  dict_set (dict_set d key v) key v' = dict_set d key v'.
Proof.
  induction d as [|[k v0] rest IH]; cbn.
  - by rewrite decide_True.
  - destruct (decide (k = key)) as [->|Hk]; cbn.
    + by rewrite decide_True.
    + by rewrite decide_False, IH.
Qed.

Lemma dict_get_pop_eq d key : dict_get (dict_pop d key) key = None.
Proof.
  induction d as [|[k v0] rest IH]; cbn; [done|].
  destruct (decide (k = key)); cbn; [done|]. by rewrite decide_False.
Qed.

Lemma dict_get_pop_ne d key key' :
  key <> key' -> dict_get (dict_pop d key) key' = dict_get d key'.
Proof.
  intros Hne. induction d as [|[k v0] rest IH]; cbn; [done|].
  destruct (decide (k = key)) as [->|Hk]; cbn.
  - by rewrite decide_False.
  - destruct (decide (k = key')); [done | exact IH].
Qed.

Lemma dict_pop_pop d key : dict_pop (dict_pop d key) key = dict_pop d key.
Proof.
  induction d as [|[k v0] rest IH]; cbn; [done|].
  destruct (decide (k = key)); cbn; [done|]. by rewrite decide_False, IH.
Qed.

Lemma with_no_sandbox_present args :
  existsb (fun item => is_str item no_sandbox) (with_no_sandbox args) = true.
Proof.
  unfold with_no_sandbox.
  destruct (existsb _ args) eqn:H; [done|].
  rewrite existsb_app. cbn. by rewrite orb_true_r.
Qed.

Lemma dict_set_same d key v :
  dict_get d key = Some v -> dict_set d key v = d.
Proof.
  induction d as [|[k v0] rest IH]; cbn; [done|].
  destruct (decide (k = key)) as [->|Hk].
  - by intros [= ->].
  - intros H. by rewrite IH.
Qed.

(** ** WharfFactory.__init__ *)

(** The run of [WharfFactory.__init__] for the [Remote] class on a bag whose
    [browserName] is "chrome": what it returns has the flag among the
    [args] of [chromeOptions]. *)
Lemma WharfFactory_init_options_chrome_inv d c kwargs' :
  dict_get d "desired_capabilities" = Some (JDict c) ->
  dict_get c "browserName" = Some (JStr "chrome") ->
  WharfFactory_init_options Remote (JDict d) = Ret kwargs' ->
  exists o' args',
    kwargs' =
      JDict (dict_set d "desired_capabilities"
               (JDict (dict_set c "chromeOptions" (JDict o')))) /\
    dict_get o' "args" = Some args' /\
    py_contains no_sandbox args' = Ret true.
Proof.
  intros Hd Hc.
  unfold WharfFactory_init_options, BrowserFactory_init_options.
  rewrite decide_True by done. cbn [obind py_get py_getitem].
  rewrite Hd. cbn [obind py_get]. rewrite Hc. cbn [is_str].
  rewrite bool_decide_eq_true_2 by done.
  cbn [obind py_getitem py_get].
  destruct (dict_get c "chromeOptions") as [co|] eqn:Hco.
  - destruct co as [| | | hay | items | o]; cbn; try discriminate.
    + destruct (substring_of "args" hay); cbn; discriminate.
    + destruct (existsb _ items); cbn; discriminate.
    + destruct (dict_get o "args") as [a|] eqn:Ha.
      * rewrite bool_decide_eq_true_2 by eauto. cbn.
        destruct a as [| | | hay | items | m]; cbn; try discriminate.
        -- destruct (substring_of no_sandbox hay) eqn:Hs; cbn;
             [|discriminate].
           intros [= <-]. exists o, (JStr hay). cbn. by rewrite Hs.
        -- destruct (existsb _ items) eqn:He; cbn.
           ++ intros [= <-]. exists o, (JList items). cbn. by rewrite He.
           ++ intros [= <-]. eexists _, _. split; [reflexivity|].
              rewrite dict_get_set_eq. split; [reflexivity|].
              cbn. rewrite existsb_app. cbn. by rewrite orb_true_r.
        -- destruct (bool_decide _) eqn:Hm; cbn; [|discriminate].
           intros [= <-]. exists o, (JDict m). cbn. by rewrite Hm.
      * rewrite bool_decide_eq_false_2 by (by intros [? ?]). cbn.
        intros [= <-]. eexists _, _. split; [reflexivity|].
        rewrite dict_get_set_eq. split; reflexivity.
  - cbn. intros [= <-]. eexists _, _. split; [reflexivity|].
    cbn. split; reflexivity.
Qed.

(** The second run on such a bag changes nothing. *)
Lemma WharfFactory_init_options_chrome_fix d c o' args' :
  dict_get c "browserName" = Some (JStr "chrome") ->
  dict_get o' "args" = Some args' ->
  py_contains no_sandbox args' = Ret true ->
  let kwargs' :=
    JDict (dict_set d "desired_capabilities"
             (JDict (dict_set c "chromeOptions" (JDict o')))) in
  WharfFactory_init_options Remote kwargs' = Ret kwargs'.
Proof.
  intros Hc Ha Hp kwargs'.
  unfold WharfFactory_init_options, BrowserFactory_init_options, kwargs'.
  rewrite decide_True by done. cbn [obind py_get py_getitem].
  rewrite dict_get_set_eq. cbn [obind py_get].
  rewrite dict_get_set_ne by done. rewrite Hc. cbn [is_str].
  rewrite bool_decide_eq_true_2 by done.
  cbn [obind py_getitem py_get].
  rewrite dict_get_set_eq. cbn [obind py_contains].
  rewrite Ha, bool_decide_eq_true_2 by eauto.
  cbn [negb obind py_getitem]. rewrite Ha. cbn [obind]. rewrite Hp.
  cbn [obind negb py_setitem]. by rewrite !dict_set_set.
Qed.

(** [WharfFactory.__init__] is idempotent on the option bag: run again on
    the bag it has returned, it returns the same bag; in particular the
    flag is not added twice. *)
Theorem WharfFactory_init_options_idempotent
    (cls : driver_class) (kwargs kwargs' : jval) :
  WharfFactory_init_options cls kwargs = Ret kwargs' ->
  WharfFactory_init_options cls kwargs' = Ret kwargs'.
Proof.
  intros Hrun.
  destruct (decide (cls = Remote)) as [-> | Hcls].
  - destruct kwargs as [| | | | |d];
      try (unfold WharfFactory_init_options, BrowserFactory_init_options in Hrun;
           rewrite decide_True in Hrun by done; cbn in Hrun; discriminate).
    assert (Hother : kwargs' = JDict d -> 
              WharfFactory_init_options Remote kwargs' = Ret kwargs')
      by (by intros ->).
    pose proof Hrun as Hrun'.
    unfold WharfFactory_init_options, BrowserFactory_init_options in Hrun'.
    rewrite decide_True in Hrun' by done. cbn [obind py_get] in Hrun'.
    destruct (dict_get d "desired_capabilities") as [caps|] eqn:Hd.
    + destruct caps as [| | | | |c]; cbn in Hrun'; try discriminate.
      destruct (dict_get c "browserName") as [name|] eqn:Hc.
      * destruct name as [| | |n| |]; cbn [is_str] in Hrun';
          try (apply Hother; congruence).
        destruct (bool_decide (n = "chrome")) eqn:Hn;
          [|apply Hother; congruence].
        apply bool_decide_eq_true_1 in Hn. subst n.
        destruct (WharfFactory_init_options_chrome_inv d c kwargs' Hd Hc Hrun)
          as (o' & args' & -> & Ha & Hp).
        exact (WharfFactory_init_options_chrome_fix d c o' args' Hc Ha Hp).
      * cbn in Hrun'. apply Hother. congruence.
    + cbn in Hrun'. apply Hother. congruence.
  - unfold WharfFactory_init_options, BrowserFactory_init_options in *.
    rewrite decide_False in * by done.
    destruct kwargs as [| | | | |d]; cbn in Hrun; try discriminate.
    rewrite dict_get_pop_eq in Hrun. cbn in Hrun. injection Hrun as <-.
    cbn. rewrite dict_pop_pop, dict_get_pop_eq. reflexivity.
Qed.

(** The run of [WharfFactory.__init__] that adds the flag. *)
Lemma WharfFactory_init_options_adds_no_sandbox_run
    (d c o : list (string * jval)) (args : list jval) :
  dict_get d "desired_capabilities" = Some (JDict c) ->
  dict_get c "browserName" = Some (JStr "chrome") ->
  (dict_get c "chromeOptions" = None /\ o = []) \/
    dict_get c "chromeOptions" = Some (JDict o) ->
  (dict_get o "args" = None /\ args = []) \/
    dict_get o "args" = Some (JList args) ->
  WharfFactory_init_options Remote (JDict d) =
  Ret (JDict
         (dict_set d "desired_capabilities"
            (JDict
               (dict_set c "chromeOptions"
                  (JDict (dict_set o "args"
                            (JList (with_no_sandbox args)))))))).
Proof.
  intros Hd Hc Hco Hargs.
  unfold WharfFactory_init_options, BrowserFactory_init_options.
  rewrite decide_True by done. cbn [obind py_get py_getitem].
  rewrite Hd. cbn [obind py_get]. rewrite Hc. cbn [is_str].
  rewrite bool_decide_eq_true_2 by done.
  cbn [obind py_getitem py_get].
  assert (Hsame : match dict_get c "chromeOptions" with
                  | Some v => v
                  | None => JDict []
                  end = JDict o).
  { destruct Hco as [[-> ->] | ->]; reflexivity. }
  rewrite Hsame. cbn [obind py_contains].
  destruct Hargs as [[Ha ->] | Ha]; rewrite Ha.
  - rewrite bool_decide_eq_false_2 by (by intros [? ?]). reflexivity.
  - rewrite bool_decide_eq_true_2 by eauto.
    cbn [negb obind py_getitem]. rewrite Ha. cbn [obind py_contains].
    unfold with_no_sandbox.
    destruct (existsb _ args) eqn:He; cbn [negb obind py_append py_setitem].
    + by rewrite (dict_set_same o "args" (JList args) Ha).
    + reflexivity.
Qed.

(** For the [Remote] class and a bag whose [browserName] is "chrome",
    [WharfFactory.__init__] puts the flag at the end of the [args] of
    [chromeOptions] unless it is among them (the list, and the dictionary,
    are made when missing) and changes nothing else. *)
Theorem WharfFactory_init_options_adds_no_sandbox
    (d c o : list (string * jval)) (args : list jval) :
  dict_get d "desired_capabilities" = Some (JDict c) ->
  dict_get c "browserName" = Some (JStr "chrome") ->
  (dict_get c "chromeOptions" = None /\ o = []) \/
    dict_get c "chromeOptions" = Some (JDict o) ->
  (dict_get o "args" = None /\ args = []) \/
    dict_get o "args" = Some (JList args) ->
  WharfFactory_init_options Remote (JDict d) =
  Ret (JDict
         (dict_set d "desired_capabilities"
            (JDict
               (dict_set c "chromeOptions"
                  (JDict (dict_set o "args"
                            (JList (with_no_sandbox args)))))))).
Proof. exact (WharfFactory_init_options_adds_no_sandbox_run d c o args). Qed.

(** For a driver class other than [Remote], [WharfFactory.__init__] takes
    [desired_capabilities] out of the bag before it looks for the browser
    name: the bag loses the entry and no flag is added, whatever the browser
    is. *)
Theorem WharfFactory_init_options_local_driver
    (cls : driver_class) (d : list (string * jval)) :
  cls <> Remote ->
  WharfFactory_init_options cls (JDict d) =
    Ret (JDict (dict_pop d "desired_capabilities")) /\
  capability (JDict (dict_pop d "desired_capabilities")) "chromeOptions" =
    None.
Proof.
  intros Hcls.
  unfold WharfFactory_init_options, BrowserFactory_init_options, capability.
  rewrite decide_False by done. cbn. rewrite dict_get_pop_eq. by cbn.
Qed.

(** ** BrowserManager.from_conf *)

Section FromConfProperties.

Variable module_has : string -> bool.
Variable new_wharf : jval -> outcome Wharf.

Lemma lower_chrome : lower "chrome" = "chrome".
Proof. reflexivity. Qed.

Lemma browser_name_run cf d c n :
  dict_get cf "webdriver_options" = Some (JDict d) ->
  dict_get d "desired_capabilities" = Some (JDict c) ->
  dict_get c "browserName" = Some (JStr n) ->
  browser_name (JDict cf) = Ret (lower n).
Proof.
  intros Hcf Hd Hc. unfold browser_name. cbn. rewrite Hcf. cbn.
  rewrite Hd. cbn. by rewrite Hc.
Qed.

Lemma set_capability_run d c key v :
  dict_get d "desired_capabilities" = Some (JDict c) ->
  set_capability (JDict d) key v =
  Ret (JDict (dict_set d "desired_capabilities" (JDict (dict_set c key v)))).
Proof. intros Hd. unfold set_capability. cbn. by rewrite Hd. Qed.

Lemma pop_capability_run d c key :
  dict_get d "desired_capabilities" = Some (JDict c) ->
  pop_capability (JDict d) key =
  Ret (JDict (dict_set d "desired_capabilities" (JDict (dict_pop c key)))).
Proof. intros Hd. unfold pop_capability. cbn. by rewrite Hd. Qed.

(** Only the name "Remote" gives the [Remote] class. *)
Lemma getattr_webdriver_not_Remote v cls :
  getattr_webdriver module_has v = Ret cls ->
  is_str v "Remote" = false ->
  cls <> Remote.
Proof.
  destruct v as [| | |name| |]; cbn; try discriminate.
  intros H Hn. apply bool_decide_eq_false_1 in Hn.
  rewrite decide_False in H by done.
  repeat (case_decide; [by injection H as <-|]).
  destruct (module_has name); [by injection H as <- | discriminate].
Qed.

(** Without a wharf and with the [Remote] driver, a browser named chrome in
    any letter case gets [chromeOptions] replaced by the single entry
    [args = ["--no-sandbox"]] (what was under [chromeOptions] is lost) and
    loses [marionette]; the other capabilities and options are kept, and
    nothing is registered at exit. *)
Theorem from_conf_remote_chrome
    (cf d c : list (string * jval)) (n : string) (at_exit : list Wharf) :
  dict_get cf "webdriver" = Some (JStr "Remote") ->
  dict_get cf "webdriver_wharf" = None ->
  dict_get cf "webdriver_options" = Some (JDict d) ->
  dict_get d "desired_capabilities" = Some (JDict c) ->
  dict_get c "browserName" = Some (JStr n) ->
  lower n = "chrome" ->
  let caps' :=
    dict_pop (dict_set c "chromeOptions"
                (JDict [("args", JList [JStr no_sandbox])])) "marionette" in
  from_conf module_has new_wharf (JDict cf) at_exit =
    (Ret {| built_class := Remote;
            built_kwargs :=
              JDict (dict_set d "desired_capabilities" (JDict caps'));
            built_wharf := None |}, at_exit) /\
  dict_get caps' "chromeOptions" =
    Some (JDict [("args", JList [JStr no_sandbox])]) /\
  dict_get caps' "marionette" = None /\
  (forall key, key <> "chromeOptions" -> key <> "marionette" ->
     dict_get caps' key = dict_get c key).
Proof.
  intros Hw Hnw Hopt Hd Hc Hn caps'. split; [|split; [|split]].
  - unfold from_conf. cbn [obind py_get py_contains].
    rewrite Hw, Hopt, Hnw. cbn [getattr_webdriver].
    rewrite decide_True by done. cbn [obind].
    rewrite bool_decide_eq_false_2 by (by intros [? ?]).
    cbn [is_str]. rewrite bool_decide_eq_true_2 by done.
    rewrite (browser_name_run cf d c n Hopt Hd Hc), Hn. cbn [obind].
    rewrite decide_True by done.
    rewrite (set_capability_run d c _ _ Hd). cbn [obind].
    rewrite (set_capability_run _ _ "chromeOptions" _
               (dict_get_set_eq d "desired_capabilities" _)). cbn [obind].
    rewrite (pop_capability_run _ _ "marionette"
               (dict_get_set_eq _ "desired_capabilities" _)). cbn [obind].
    rewrite decide_False by done. cbn [obind].
    unfold BrowserFactory_init_options. rewrite decide_True by done.
    cbn [obind]. by rewrite !dict_set_set.
  - unfold caps'. rewrite dict_get_pop_ne by done. apply dict_get_set_eq.
  - apply dict_get_pop_eq.
  - intros key Hk1 Hk2. unfold caps'.
    rewrite dict_get_pop_ne by done. by rewrite dict_get_set_ne.
Qed.

(** With a wharf and the [Remote] driver, a browser whose name is not
    exactly "chrome" and is not firefox in any letter case leaves the
    options as they are: "Chrome" with a capital gets no sandbox flag. The
    wharf client is built and its [checkin] registered at exit. *)
Theorem from_conf_wharf_other_browser
    (cf d c : list (string * jval)) (n : string) (wharf_conf : jval)
    (wh : Wharf) (at_exit : list Wharf) :
  dict_get cf "webdriver" = Some (JStr "Remote") ->
  dict_get cf "webdriver_wharf" = Some wharf_conf ->
  new_wharf wharf_conf = Ret wh ->
  dict_get cf "webdriver_options" = Some (JDict d) ->
  dict_get d "desired_capabilities" = Some (JDict c) ->
  dict_get c "browserName" = Some (JStr n) ->
  n <> "chrome" ->
  lower n <> "firefox" ->
  from_conf module_has new_wharf (JDict cf) at_exit =
    (Ret {| built_class := Remote;
            built_kwargs := JDict d;
            built_wharf := Some wh |}, at_exit ++ [wh]).
Proof.
  intros Hw Hwh Hnew Hopt Hd Hc Hn Hf.
  unfold from_conf. cbn [obind py_get py_contains py_getitem].
  rewrite Hw, Hopt, Hwh. cbn [getattr_webdriver].
  rewrite decide_True by done. cbn [obind].
  rewrite bool_decide_eq_true_2 by eauto. rewrite Hnew.
  rewrite (browser_name_run cf d c n Hopt Hd Hc). cbn [obind].
  rewrite decide_False by done. cbn [obind].
  unfold WharfFactory_init_options, BrowserFactory_init_options.
  rewrite decide_True by done. cbn [obind py_get]. rewrite Hd.
  cbn [obind py_get]. rewrite Hc. cbn [is_str].
  rewrite bool_decide_eq_false_2 by done. reflexivity.
Qed.

(** With a wharf and the [Remote] driver, a browser named exactly "chrome"
    gets the flag added to the [args] of its [chromeOptions], which are
    kept. *)
Theorem from_conf_wharf_chrome
    (cf d c o : list (string * jval)) (args : list jval) (wharf_conf : jval)
    (wh : Wharf) (at_exit : list Wharf) :
  dict_get cf "webdriver" = Some (JStr "Remote") ->
  dict_get cf "webdriver_wharf" = Some wharf_conf ->
  new_wharf wharf_conf = Ret wh ->
  dict_get cf "webdriver_options" = Some (JDict d) ->
  dict_get d "desired_capabilities" = Some (JDict c) ->
  dict_get c "browserName" = Some (JStr "chrome") ->
  (dict_get c "chromeOptions" = None /\ o = []) \/
    dict_get c "chromeOptions" = Some (JDict o) ->
  (dict_get o "args" = None /\ args = []) \/
    dict_get o "args" = Some (JList args) ->
  from_conf module_has new_wharf (JDict cf) at_exit =
    (Ret {| built_class := Remote;
            built_kwargs :=
              JDict
                (dict_set d "desired_capabilities"
                   (JDict
                      (dict_set c "chromeOptions"
                         (JDict (dict_set o "args"
                                   (JList (with_no_sandbox args)))))));
            built_wharf := Some wh |}, at_exit ++ [wh]).
Proof.
  intros Hw Hwh Hnew Hopt Hd Hc Hco Hargs.
  unfold from_conf. cbn [obind py_get py_contains py_getitem].
  rewrite Hw, Hopt, Hwh. cbn [getattr_webdriver].
  rewrite decide_True by done. cbn [obind].
  rewrite bool_decide_eq_true_2 by eauto. rewrite Hnew.
  rewrite (browser_name_run cf d c "chrome" Hopt Hd Hc). cbn [obind].
  rewrite lower_chrome, decide_False by done. cbn [obind].
  by rewrite (WharfFactory_init_options_adds_no_sandbox_run d c o args
                Hd Hc Hco Hargs).
Qed.

(** With a wharf and the [Remote] driver, a browser named firefox in any
    letter case gets [marionette] set to [False]; nothing else changes. *)
Theorem from_conf_wharf_firefox
    (cf d c : list (string * jval)) (n : string) (wharf_conf : jval)
    (wh : Wharf) (at_exit : list Wharf) :
  dict_get cf "webdriver" = Some (JStr "Remote") ->
  dict_get cf "webdriver_wharf" = Some wharf_conf ->
  new_wharf wharf_conf = Ret wh ->
  dict_get cf "webdriver_options" = Some (JDict d) ->
  dict_get d "desired_capabilities" = Some (JDict c) ->
  dict_get c "browserName" = Some (JStr n) ->
  lower n = "firefox" ->
  from_conf module_has new_wharf (JDict cf) at_exit =
    (Ret {| built_class := Remote;
            built_kwargs :=
              JDict (dict_set d "desired_capabilities"
                       (JDict (dict_set c "marionette" (JBool false))));
            built_wharf := Some wh |}, at_exit ++ [wh]).
Proof.
  intros Hw Hwh Hnew Hopt Hd Hc Hn.
  assert (Hnc : n <> "chrome") by (intros ->; discriminate).
  unfold from_conf. cbn [obind py_get py_contains py_getitem].
  rewrite Hw, Hopt, Hwh. cbn [getattr_webdriver].
  rewrite decide_True by done. cbn [obind].
  rewrite bool_decide_eq_true_2 by eauto. rewrite Hnew.
  rewrite (browser_name_run cf d c n Hopt Hd Hc), Hn. cbn [obind].
  rewrite decide_True by done.
  rewrite (set_capability_run d c _ _ Hd). cbn [obind].
  unfold WharfFactory_init_options, BrowserFactory_init_options.
  rewrite decide_True by done. cbn [obind py_get].
  rewrite dict_get_set_eq. cbn [obind py_get].
  rewrite dict_get_set_ne by done. rewrite Hc. cbn [is_str].
  rewrite bool_decide_eq_false_2 by done. reflexivity.
Qed.

(** With a wharf configured and no [webdriver_options], [from_conf] raises
    [KeyError]: the options default to an empty bag, but the browser name is
    read through the configuration.  The wharf client has been built by
    then and its [checkin] stays registered at exit. *)
Theorem from_conf_wharf_without_options
    (cf : list (string * jval)) (cls : driver_class) (wharf_conf : jval)
    (wh : Wharf) (at_exit : list Wharf) :
  getattr_webdriver module_has
    (match dict_get cf "webdriver" with
     | Some v => v
     | None => JStr "Firefox"
     end) = Ret cls ->
  dict_get cf "webdriver_wharf" = Some wharf_conf ->
  new_wharf wharf_conf = Ret wh ->
  dict_get cf "webdriver_options" = None ->
  from_conf module_has new_wharf (JDict cf) at_exit =
    (Exc (KeyError "webdriver_options"), at_exit ++ [wh]).
Proof.
  intros Hcls Hwh Hnew Hopt.
  unfold from_conf. cbn [obind py_get py_contains py_getitem].
  rewrite Hcls, Hopt, Hwh. cbn [obind].
  rewrite bool_decide_eq_true_2 by eauto. rewrite Hnew.
  unfold browser_name. cbn. by rewrite Hopt.
Qed.

(** Without a wharf and with a driver other than [Remote] (the default is
    [Firefox]), [from_conf] does not read the browser name: it returns for
    any option dictionary, also a missing one, and the factory's options
    are the configured ones without [desired_capabilities]. *)
Theorem from_conf_local_driver
    (cf d : list (string * jval)) (cls : driver_class)
    (at_exit : list Wharf) :
  let webdriver_name :=
    match dict_get cf "webdriver" with
    | Some v => v
    | None => JStr "Firefox"
    end in
  getattr_webdriver module_has webdriver_name = Ret cls ->
  is_str webdriver_name "Remote" = false ->
  dict_get cf "webdriver_wharf" = None ->
  (dict_get cf "webdriver_options" = None /\ d = []) \/
    dict_get cf "webdriver_options" = Some (JDict d) ->
  from_conf module_has new_wharf (JDict cf) at_exit =
    (Ret {| built_class := cls;
            built_kwargs := JDict (dict_pop d "desired_capabilities");
            built_wharf := None |}, at_exit).
Proof.
  intros webdriver_name Hcls Hname Hnw Hopt.
  pose proof (getattr_webdriver_not_Remote _ _ Hcls Hname) as Hnot.
  unfold from_conf. cbn [obind py_get py_contains].
  fold webdriver_name. rewrite Hcls, Hnw. cbn [obind].
  rewrite bool_decide_eq_false_2 by (by intros [? ?]).
  rewrite Hname. cbn [obind].
  unfold BrowserFactory_init_options. rewrite decide_False by done.
  destruct Hopt as [[-> ->] | ->]; reflexivity.
Qed.

End FromConfProperties.

(** ** Runs of the configuration properties *)

Lemma WharfFactory_init_options_idempotent_witness :
  WharfFactory_init_options Remote
    (JDict
       (dict_set chrome_bag "desired_capabilities"
          (JDict
             (dict_set chrome_capabilities "chromeOptions"
                (JDict
                   [("binary", JStr "/usr/bin/chromium");
                    ("args", JList [JStr "--headless"; JStr no_sandbox])]))))) =
  Ret (JDict
         (dict_set chrome_bag "desired_capabilities"
            (JDict
               (dict_set chrome_capabilities "chromeOptions"
                  (JDict
                     [("binary", JStr "/usr/bin/chromium");
                      ("args", JList [JStr "--headless"; JStr no_sandbox])]))))).
Proof.
  exact (WharfFactory_init_options_idempotent Remote (JDict chrome_bag) _
           eq_refl).
Defined.

Lemma WharfFactory_init_options_adds_no_sandbox_witness :
  WharfFactory_init_options Remote (JDict chrome_bag) =
  Ret (JDict
         (dict_set chrome_bag "desired_capabilities"
            (JDict
               (dict_set chrome_capabilities "chromeOptions"
                  (JDict
                     (dict_set
                        [("binary", JStr "/usr/bin/chromium");
                         ("args", JList [JStr "--headless"])]
                        "args"
                        (JList (with_no_sandbox [JStr "--headless"])))))))).
Proof.
  exact (WharfFactory_init_options_adds_no_sandbox chrome_bag
           chrome_capabilities
           [("binary", JStr "/usr/bin/chromium");
            ("args", JList [JStr "--headless"])]
           [JStr "--headless"]
           eq_refl eq_refl (or_intror eq_refl) (or_intror eq_refl)).
Defined.

Lemma WharfFactory_init_options_local_driver_witness :
  WharfFactory_init_options Chrome (JDict chrome_bag) =
    Ret (JDict (dict_pop chrome_bag "desired_capabilities")) /\
  capability (JDict (dict_pop chrome_bag "desired_capabilities"))
    "chromeOptions" = None.
Proof.
  apply (WharfFactory_init_options_local_driver Chrome chrome_bag).
  discriminate.
Defined.

Lemma from_conf_remote_chrome_witness :
  let caps' :=
    dict_pop (dict_set capital_chrome_capabilities "chromeOptions"
                (JDict [("args", JList [JStr no_sandbox])])) "marionette" in
  from_conf plain_module wharf_zero (JDict (remote_conf capital_chrome_bag))
    [] =
    (Ret {| built_class := Remote;
            built_kwargs :=
              JDict (dict_set capital_chrome_bag "desired_capabilities"
                       (JDict caps'));
            built_wharf := None |}, []) /\
  dict_get caps' "chromeOptions" =
    Some (JDict [("args", JList [JStr no_sandbox])]) /\
  dict_get caps' "marionette" = None /\
  (forall key, key <> "chromeOptions" -> key <> "marionette" ->
     dict_get caps' key = dict_get capital_chrome_capabilities key).
Proof.
  exact (from_conf_remote_chrome plain_module wharf_zero
           (remote_conf capital_chrome_bag) capital_chrome_bag
           capital_chrome_capabilities "Chrome" []
           eq_refl eq_refl eq_refl eq_refl eq_refl eq_refl).
Defined.

Lemma from_conf_wharf_other_browser_witness :
  from_conf plain_module wharf_zero
    (JDict (remote_wharf_conf capital_chrome_bag)) [] =
    (Ret {| built_class := Remote;
            built_kwargs := JDict capital_chrome_bag;
            built_wharf := Some 0 |}, [] ++ [0]).
Proof.
  apply (from_conf_wharf_other_browser plain_module wharf_zero
           (remote_wharf_conf capital_chrome_bag) capital_chrome_bag
           capital_chrome_capabilities "Chrome" wharf_url 0 []);
    first [reflexivity | discriminate].
Defined.

Lemma from_conf_wharf_chrome_witness :
  from_conf plain_module wharf_zero (JDict (remote_wharf_conf chrome_bag)) [] =
    (Ret {| built_class := Remote;
            built_kwargs :=
              JDict
                (dict_set chrome_bag "desired_capabilities"
                   (JDict
                      (dict_set chrome_capabilities "chromeOptions"
                         (JDict
                            (dict_set
                               [("binary", JStr "/usr/bin/chromium");
                                ("args", JList [JStr "--headless"])]
                               "args"
                               (JList (with_no_sandbox [JStr "--headless"])))))));
            built_wharf := Some 0 |}, [] ++ [0]).
Proof.
  exact (from_conf_wharf_chrome plain_module wharf_zero
           (remote_wharf_conf chrome_bag) chrome_bag chrome_capabilities
           [("binary", JStr "/usr/bin/chromium");
            ("args", JList [JStr "--headless"])]
           [JStr "--headless"] wharf_url 0 []
           eq_refl eq_refl eq_refl eq_refl eq_refl eq_refl
           (or_intror eq_refl) (or_intror eq_refl)).
Defined.

Lemma from_conf_wharf_firefox_witness :
  from_conf plain_module wharf_zero (JDict (remote_wharf_conf firefox_bag)) [] =
    (Ret {| built_class := Remote;
            built_kwargs :=
              JDict (dict_set firefox_bag "desired_capabilities"
                       (JDict (dict_set firefox_capabilities "marionette"
                                 (JBool false))));
            built_wharf := Some 0 |}, [] ++ [0]).
Proof.
  exact (from_conf_wharf_firefox plain_module wharf_zero
           (remote_wharf_conf firefox_bag) firefox_bag firefox_capabilities
           "Firefox" wharf_url 0 []
           eq_refl eq_refl eq_refl eq_refl eq_refl eq_refl eq_refl).
Defined.

Lemma from_conf_wharf_without_options_witness :
  from_conf plain_module wharf_zero (JDict [("webdriver_wharf", wharf_url)])
    [] = (Exc (KeyError "webdriver_options"), [] ++ [0]).
Proof.
  exact (from_conf_wharf_without_options plain_module wharf_zero
           [("webdriver_wharf", wharf_url)] Firefox wharf_url 0 []
           eq_refl eq_refl eq_refl eq_refl).
Defined.

Lemma from_conf_local_driver_witness :
  from_conf plain_module wharf_zero (JDict []) [] =
    (Ret {| built_class := Firefox;
            built_kwargs := JDict (dict_pop [] "desired_capabilities");
            built_wharf := None |}, []).
Proof.
  exact (from_conf_local_driver plain_module wharf_zero [] [] Firefox []
           eq_refl eq_refl eq_refl (or_introl (conj eq_refl eq_refl))).
Defined.
